(** * Deployment assembler: [pulumi/containers/ecs_service.py]

    A shallow embedding of the [ECSService] class and of the small part of
    Python and of the provisioning SDK it relies on, followed by the
    properties of the assembled resource graph. *)

From Stdlib Require Import ZArith Ascii DecimalString.
From stdpp Require Import gmap strings list fin_maps.

(** ** Python values used by the assembler *)

Module Py.

(** Characters that cannot be written inside a literal. *)
Definition dquote : ascii := "034"%char.
Definition backslash : ascii := "092"%char.
Definition underscore : ascii := "095"%char.
Definition hyphen : ascii := "045"%char.

(** [str(n)] for a Python [int]. *)
Definition str (n : Z) : string := NilZero.string_of_int (Z.to_int n).

(** [s.replace(old, new)]: scan left to right, and at every position where
    [old] starts emit [new] and jump over the match.  [skip] counts the
    characters of the current match still to be jumped over. *)
Fixpoint replace_from (old new : string) (skip : nat) (s : string) : string :=
  match s with
  | EmptyString => EmptyString
  | String c s' =>
      match skip with
      | S k => replace_from old new k s'
      | O =>
          if String.prefix old s
          then new +:+ replace_from old new (String.length old - 1) s'
          else String c (replace_from old new O s')
      end
  end.

Definition replace (old new s : string) : string := replace_from old new O s.

(** [c in s] for a one-character [c]. *)
Fixpoint contains (c : ascii) (s : string) : bool :=
  match s with
  | EmptyString => false
  | String d s' => if Ascii.eqb c d then true else contains c s'
  end.

(** Exceptions the assembler can raise. *)
Inductive Exception :=
| KeyError (key : string)
| AttributeError (attr : string).

End Py.

(** ** The [json] module: documents and [json.dumps] *)

Module json.

(** The values [json.dumps] is applied to.  A [dict] keeps its insertion
    order, which is the order of the rendered members. *)
#[warnings="-register-all"] Inductive value :=
| JBool (b : bool)
| JInt (n : Z)
| JStr (s : string)
| JList (items : list value)
| JDict (members : list (string * value)).

Definition hex_digit (n : N) : ascii :=
  match String.get (N.to_nat n) "0123456789abcdef" with
  | Some c => c
  | None => "0"%char
  end.

(** ['\\u{0:04x}'.format(n)] for a code point below 256. *)
Definition u_escape (c : ascii) : string :=
  let n := N_of_ascii c in
  String Py.backslash
    (String "u" (String "0" (String "0"
       (String (hex_digit (n / 16)) (String (hex_digit (n mod 16)) EmptyString))))).

(** One character of [py_encode_basestring_ascii]: the quote, the
    backslash and everything outside [' '..'~'] are escaped. *)
Definition escape_char (c : ascii) : string :=
  let n := N_of_ascii c in
  if Ascii.eqb c Py.dquote then String Py.backslash (String Py.dquote EmptyString)
  else if Ascii.eqb c Py.backslash then String Py.backslash (String Py.backslash EmptyString)
  else if (n =? 8)%N then String Py.backslash "b"
  else if (n =? 12)%N then String Py.backslash "f"
  else if (n =? 10)%N then String Py.backslash "n"
  else if (n =? 13)%N then String Py.backslash "r"
  else if (n =? 9)%N then String Py.backslash "t"
  else if ((n <? 32) || (126 <? n))%N then u_escape c
  else String c EmptyString.

Fixpoint escape (s : string) : string :=
  match s with
  | EmptyString => EmptyString
  | String c s' => escape_char c +:+ escape s'
  end.

Definition encode_string (s : string) : string :=
  String Py.dquote (escape s +:+ String Py.dquote EmptyString).

(** [json.dumps(v)] with the default separators [", "] and [": "]. *)
Fixpoint dumps (v : value) : string :=
  match v with
  | JBool true => "true"
  | JBool false => "false"
  | JInt n => Py.str n
  | JStr s => encode_string s
  | JList items =>
      "[" +:+
      (fix dumps_items (l : list value) : string :=
         match l with
         | [] => EmptyString
         | x :: l' =>
             match l' with
             | [] => dumps x
             | _ :: _ => dumps x +:+ ", " +:+ dumps_items l'
             end
         end) items
      +:+ "]"
  | JDict members =>
      "{" +:+
      (fix dumps_members (l : list (string * value)) : string :=
         match l with
         | [] => EmptyString
         | (k, x) :: l' =>
             match l' with
             | [] => encode_string k +:+ ": " +:+ dumps x
             | _ :: _ => encode_string k +:+ ": " +:+ dumps x +:+ ", " +:+ dumps_members l'
             end
         end) members
      +:+ "}"
  end.

(** [d[k]] on a document that is a [dict]; [None] elsewhere. *)
Fixpoint assoc (k : string) (l : list (string * value)) : option value :=
  match l with
  | [] => None
  | (k', x) :: l' => if String.eqb k k' then Some x else assoc k l'
  end.

Definition member (k : string) (v : value) : option value :=
  match v with
  | JDict members => assoc k members
  | _ => None
  end.

End json.

(** ** Inputs of the assembler *)

(** Modelled from the spec: [input_schemas.SubnetType], the two kinds of
    subnet the network provider is asked for. *)
Inductive SubnetType := PUBLIC | PRIVATE.

(** Modelled from the spec: [input_schemas.DjangoServiceCfg] and its
    [backend_cfg], the immutable desired-state input (service name, project
    identifier, container port, load-balancer port, CPU, memory, desired
    replica count).  The numeric fields are Python [int]s. *)
Record BackendCfg := {
  lb_port : Z;
  container_port : Z;
  cpu : Z;
  memory : Z;
  desired_count : Z;
}.

Record DjangoServiceCfg := {
  service_name : string;
  django_project : string;
  backend_cfg : BackendCfg;
}.

(** Modelled from the spec: [networking.Networking], the network provider,
    which exposes [vpc_id() -> string] and
    [subnet_ids(kind) -> sequence of string]. *)
Record Networking := {
  vpc_id : string;
  public_subnet_ids : list string;
  private_subnet_ids : list string;
}.

Definition get_vpc_id (n : Networking) : string := vpc_id n.

Definition get_subnet_ids (n : Networking) (kind : SubnetType) : list string :=
  match kind with
  | PUBLIC => public_subnet_ids n
  | PRIVATE => private_subnet_ids n
  end.

(** ** Resources, pending identifiers and deferred values *)

(** The resource classes of [pulumi_aws] the assembler instantiates, and
    [iam.Role], which it receives. *)
Inductive ResourceType :=
| SecurityGroup | LoadBalancer | TargetGroup | Listener
| LogGroup | Cluster | TaskDefinition | Service | Role.

(** A resource object as the program holds it: its class and the logical
    name it was declared under. *)
Record Resource := {
  resource_type : ResourceType;
  resource_name : string;
}.

#[global] Instance ResourceType_eq_dec : EqDecision ResourceType.
Proof. solve_decision. Defined.

#[global] Instance Resource_eq_dec : EqDecision Resource.
Proof. solve_decision. Defined.

(** Modelled from the spec: [containers.repository.Repository], part of the
    image pipeline; [get_repository()] hands out the repository it wraps. *)
Record Repository := { repository_name : string }.

Inductive RepositoryHandle := RepositoryOf (r : Repository).

Definition get_repository (r : Repository) : RepositoryHandle := RepositoryOf r.

(** Modelled from the spec: [containers.image.Image], the image publisher,
    built from a name, the project identifier and a repository. *)
Record Image := {
  image_name : string;
  image_project : string;
  image_repository : RepositoryHandle;
}.

(** Modelled from the spec: [dbs.rds.RDS], the data-store provisioner,
    constructed from (network provider, security perimeter, service
    config). *)
Record RDS := {
  rds_networking : Networking;
  rds_security_group : Resource;
  rds_cfg : DjangoServiceCfg;
}.

(** An identifier that is not known when the program runs: an output
    attribute of a declared resource, the reference of a pushed image, the
    host of a data store. *)
Inductive Pending :=
| Attribute (r : Resource) (attr : string)
| ImageUri (image : Image) (version : string)
| DbHost (db : RDS).

(** How far provisioning has got: the identifiers assigned so far. *)
Definition Resolution := Pending -> option string.

(** Modelled from the spec: [pulumi.Output], a deferred value.  It yields
    its value once the identifiers it depends on are assigned, and nothing
    before that. *)
Definition Output (A : Type) := Resolution -> option A.

Module Output.

(** A value that only waits for one identifier. *)
Definition of_pending (p : Pending) : Output string := fun rho => rho p.

(** Modelled from the spec: [pulumi.Output.all] with keyword arguments, the
    join of futures.  It completes, with the [dict] of the values, only once all
    its inputs have resolved. *)
Fixpoint all (kwargs : list (string * Output string)) : Output (gmap string string) :=
  fun rho =>
    match kwargs with
    | [] => Some ∅
    | (k, o) :: kwargs' =>
        match o rho, all kwargs' rho with
        | Some v, Some d => Some (<[k:=v]> d)
        | _, _ => None
        end
    end.

(** Modelled from the spec: [o.apply(f)].  The callback runs on the
    resolved value; a callback that raises (here: a missing [dict] key)
    yields no value. *)
Definition apply {A B : Type} (o : Output A) (f : A -> option B) : Output B :=
  fun rho => o rho ≫= f.

End Output.

(** The output attributes the assembler reads. *)
Definition id_of (r : Resource) : Output string := Output.of_pending (Attribute r "id").
Definition arn_of (r : Resource) : Output string := Output.of_pending (Attribute r "arn").
Definition name_of (r : Resource) : Output string := Output.of_pending (Attribute r "name").

(** [image.push_image(version)] and [db.get_host()] of the collaborators
    return deferred strings. *)
Definition image_uri_of (i : Image) (version : string) : Output string :=
  Output.of_pending (ImageUri i version).

Definition get_host (db : RDS) : Output string := Output.of_pending (DbHost db).


(** ** Arguments of the declared resources

    One record per argument class; an argument the program leaves out is
    [None]. *)

Record SecurityGroupIngressArgs := {
  ingress_from_port : Z;
  ingress_to_port : Z;
  ingress_protocol : string;
  ingress_cidr_blocks : option (list string);
  ingress_security_groups : option (list (Output string));
}.

Record SecurityGroupEgressArgs := {
  egress_from_port : Z;
  egress_to_port : Z;
  egress_protocol : string;
  egress_cidr_blocks : option (list string);
}.

Record SecurityGroupArgs := {
  sg_name : string;
  sg_description : string;
  sg_vpc_id : string;
  sg_ingress : list SecurityGroupIngressArgs;
  sg_egress : list SecurityGroupEgressArgs;
  sg_tags : list (string * string);
}.

Record LoadBalancerArgs := {
  lb_name : string;
  lb_load_balancer_type : string;
  lb_internal : bool;
  lb_security_groups : list (Output string);
  lb_subnets : list string;
}.

Record TargetGroupHealthCheckArgs := {
  hc_path : string;
  hc_port : string;
  hc_healthy_threshold : Z;
  hc_unhealthy_threshold : Z;
  hc_timeout : Z;
  hc_interval : Z;
  hc_matcher : string;
}.

Record TargetGroupArgs := {
  tg_name : string;
  tg_port : Z;
  tg_protocol : string;
  tg_vpc_id : string;
  tg_target_type : string;
  tg_health_check : TargetGroupHealthCheckArgs;
}.

Record ListenerDefaultActionArgs := {
  action_type : string;
  action_target_group_arn : Output string;
}.

Record ListenerArgs := {
  listener_load_balancer_arn : Output string;
  listener_port : Z;
  listener_default_actions : list ListenerDefaultActionArgs;
}.

Record LogGroupArgs := {
  log_group_name : string;
  log_group_retention_in_days : Z;
}.

Record ClusterArgs := { cluster_name : string }.

Record TaskDefinitionArgs := {
  td_family : string;
  td_network_mode : string;
  td_requires_compatibilities : list string;
  td_cpu : Z;
  td_memory : Z;
  td_execution_role_arn : Output string;
  td_task_role_arn : Output string;
  td_container_definitions : Output string;
}.

Record ServiceNetworkConfigurationArgs := {
  net_subnets : list string;
  net_security_groups : list (Output string);
  net_assign_public_ip : bool;
}.

Record ServiceLoadBalancerArgs := {
  slb_target_group_arn : Output string;
  slb_container_name : string;
  slb_container_port : Z;
}.

Record ServiceArgs := {
  service_name_arg : string;
  service_cluster : Output string;
  service_task_definition : Output string;
  service_launch_type : string;
  service_desired_count : Z;
  service_network_configuration : ServiceNetworkConfigurationArgs;
  service_load_balancers : list ServiceLoadBalancerArgs;
}.

(** ** The declared graph

    Every constructor call registers a declaration; the calls to the
    collaborators (repository, image publisher, data store) are registered
    as opaque nodes carrying what was passed to them. *)
Inductive Declaration :=
| DSecurityGroup (logical : string) (args : SecurityGroupArgs)
| DLoadBalancer (logical : string) (args : LoadBalancerArgs)
| DTargetGroup (logical : string) (args : TargetGroupArgs)
| DListener (logical : string) (args : ListenerArgs)
| DLogGroup (logical : string) (args : LogGroupArgs)
| DCluster (logical : string) (args : ClusterArgs)
| DTaskDefinition (logical : string) (args : TaskDefinitionArgs)
| DService (logical : string) (args : ServiceArgs)
| DRepository (r : Repository)
| DImage (i : Image)
| DPushImage (i : Image) (version : string)
| DRDS (db : RDS).

Definition Stack := list Declaration.

(** ** Programs: declarations in order, with Python exceptions *)

Inductive result (A : Type) :=
| Returned (a : A)
| Raised (e : Py.Exception).
Arguments Returned {A} a.
Arguments Raised {A} e.

Definition Program (A : Type) := Stack -> Stack * result A.

#[global] Instance Program_ret : MRet Program :=
  fun A a st => (st, Returned a).

#[global] Instance Program_bind : MBind Program :=
  fun A B f m st =>
    match m st with
    | (st', Returned a) => f a st'
    | (st', Raised e) => (st', Raised e)
    end.

Definition raise {A : Type} (e : Py.Exception) : Program A :=
  fun st => (st, Raised e).

Definition declare (d : Declaration) : Program unit :=
  fun st => (st ++ [d], Returned tt).

(** A resource constructor registers the declaration and returns the
    resource object. *)
Definition construct (ty : ResourceType) (logical : string) (d : Declaration)
  : Program Resource :=
  declare d;; mret {| resource_type := ty; resource_name := logical |}.

(** [d[k]] on a [dict] and [self.attr] on an attribute that a method sets. *)
Definition getitem {A : Type} (d : gmap string A) (k : string) : Program A :=
  match d !! k with
  | Some a => mret a
  | None => raise (Py.KeyError k)
  end.

Definition getattr {A : Type} (attr : string) (o : option A) : Program A :=
  match o with
  | Some a => mret a
  | None => raise (Py.AttributeError attr)
  end.

(** ** The assembler: [class ECSService] *)

Module ECSService.

(** The object: the three constructor arguments, and the attributes that
    [create_networking] and [create_db] set. *)
Record self := {
  networking : Networking;
  django_srv_cfg : DjangoServiceCfg;
  roles : gmap string Resource;
  ecs_sg : option Resource;
  django_tg : option Resource;
  db : option RDS;
}.

Definition set_ecs_sg (s : self) (r : Resource) : self :=
  {| networking := networking s; django_srv_cfg := django_srv_cfg s;
     roles := roles s; ecs_sg := Some r; django_tg := django_tg s; db := db s |}.

Definition set_django_tg (s : self) (r : Resource) : self :=
  {| networking := networking s; django_srv_cfg := django_srv_cfg s;
     roles := roles s; ecs_sg := ecs_sg s; django_tg := Some r; db := db s |}.

Definition set_db (s : self) (d : RDS) : self :=
  {| networking := networking s; django_srv_cfg := django_srv_cfg s;
     roles := roles s; ecs_sg := ecs_sg s; django_tg := django_tg s; db := Some d |}.

Definition create_networking (s : self) : Program self :=
  let SERVICE_NAME := Py.replace "_" "-" (service_name (django_srv_cfg s)) in
  let LB_PORT := lb_port (backend_cfg (django_srv_cfg s)) in
  lb_sg ← construct SecurityGroup (SERVICE_NAME +:+ "-lb-sg")
    (DSecurityGroup (SERVICE_NAME +:+ "-lb-sg") {|
       sg_name := SERVICE_NAME +:+ "-lb-sg";
       sg_description := "Controls access to the ALB";
       sg_vpc_id := get_vpc_id (networking s);
       sg_ingress := [ {|
         ingress_from_port := LB_PORT;
         ingress_to_port := LB_PORT;
         ingress_protocol := "tcp";
         ingress_cidr_blocks := Some ["0.0.0.0/0"];
         ingress_security_groups := None |} ];
       sg_egress := [ {|
         egress_from_port := 0;
         egress_to_port := 0;
         egress_protocol := "-1";
         egress_cidr_blocks := Some ["0.0.0.0/0"] |} ];
       sg_tags := [("Name", SERVICE_NAME +:+ "-lb-sg")] |});
  sg ← construct SecurityGroup (SERVICE_NAME +:+ "-sg")
    (DSecurityGroup (SERVICE_NAME +:+ "-sg") {|
       sg_name := SERVICE_NAME +:+ "-ecs-sg";
       sg_description := "Controls access to the ECS Service";
       sg_vpc_id := get_vpc_id (networking s);
       sg_ingress := [ {|
         ingress_from_port := 0;
         ingress_to_port := 0;
         ingress_protocol := "-1";
         ingress_cidr_blocks := None;
         ingress_security_groups := Some [id_of lb_sg] |} ];
       sg_egress := [ {|
         egress_from_port := 0;
         egress_to_port := 0;
         egress_protocol := "-1";
         egress_cidr_blocks := Some ["0.0.0.0/0"] |} ];
       sg_tags := [("Name", SERVICE_NAME +:+ "-ecs-sg")] |});
  let s := set_ecs_sg s sg in
  django_lb ← construct LoadBalancer (SERVICE_NAME +:+ "-lb")
    (DLoadBalancer (SERVICE_NAME +:+ "-lb") {|
       lb_name := SERVICE_NAME +:+ "-lb";
       lb_load_balancer_type := "application";
       lb_internal := false;
       lb_security_groups := [id_of lb_sg];
       lb_subnets := get_subnet_ids (networking s) PUBLIC |});
  tg ← construct TargetGroup (SERVICE_NAME +:+ "-service-tg")
    (DTargetGroup (SERVICE_NAME +:+ "-service-tg") {|
       tg_name := SERVICE_NAME +:+ "-service-tg";
       tg_port := LB_PORT;
       tg_protocol := "HTTP";
       tg_vpc_id := get_vpc_id (networking s);
       tg_target_type := "ip";
       tg_health_check := {|
         hc_path := "/ping/";
         hc_port := "traffic-port";
         hc_healthy_threshold := 5;
         hc_unhealthy_threshold := 2;
         hc_timeout := 2;
         hc_interval := 5;
         hc_matcher := "200" |} |});
  let s := set_django_tg s tg in
  tg' ← getattr "django_tg" (django_tg s);
  construct Listener (SERVICE_NAME +:+ "-lb-listener")
    (DListener (SERVICE_NAME +:+ "-lb-listener") {|
       listener_load_balancer_arn := arn_of django_lb;
       listener_port := LB_PORT;
       listener_default_actions := [ {|
         action_type := "forward";
         action_target_group_arn := arn_of tg' |} ] |});;
  mret s.

Definition create_db (s : self) : Program self :=
  sg ← getattr "ecs_sg" (ecs_sg s);
  let d := {| rds_networking := networking s;
              rds_security_group := sg;
              rds_cfg := django_srv_cfg s |} in
  declare (DRDS d);;
  mret (set_db s d).

(** The document handed to [json.dumps] in the callback. *)
Definition container_document (SERVICE_NAME : string) (CONT_PORT : Z)
    (image_uri log_group_name host : string) : json.value :=
  json.JList [
    json.JDict [
      ("name", json.JStr SERVICE_NAME);
      ("image", json.JStr image_uri);
      ("essential", json.JBool true);
      ("cpu", json.JInt 10);
      ("memory", json.JInt 512);
      ("portMappings", json.JList [
         json.JDict [
           ("containerPort", json.JInt CONT_PORT);
           ("protocol", json.JStr "tcp") ] ]);
      ("command", json.JList [json.JStr SERVICE_NAME; json.JStr (Py.str CONT_PORT)]);
      ("environment", json.JList [
         json.JDict [
           ("name", json.JStr "ENVIRONMENT");
           ("value", json.JStr "PROD") ];
         json.JDict [
           ("name", json.JStr "DB_HOST");
           ("value", json.JStr host) ] ]);
      ("logConfiguration", json.JDict [
         ("logDriver", json.JStr "awslogs");
         ("options", json.JDict [
            ("awslogs-group", json.JStr log_group_name);
            ("awslogs-region", json.JStr "eu-west-1");
            ("awslogs-stream-prefix", json.JStr (SERVICE_NAME +:+ "-log-stream")) ]) ])
    ]
  ].

(** The callback: [lambda args: json.dumps([...])].  The entries of [args]
    are read in the order the literal mentions them. *)
Definition render (SERVICE_NAME : string) (CONT_PORT : Z)
    (args : gmap string string) : option string :=
  image_uri ← args !! "image_uri";
  host ← args !! "host";
  log_group_name ← args !! "log_group_name";
  Some (json.dumps
          (container_document SERVICE_NAME CONT_PORT image_uri log_group_name host)).

Definition container_definitions_template (SERVICE_NAME : string) (CONT_PORT : Z)
    (image_uri log_group_name host : Output string) : Output string :=
  Output.apply
    (Output.all [("image_uri", image_uri);
                 ("log_group_name", log_group_name);
                 ("host", host)])
    (render SERVICE_NAME CONT_PORT).

Definition create_ecs_service (s : self) : Program unit :=
  let SERVICE_NAME := service_name (django_srv_cfg s) in
  let CONT_PORT := container_port (backend_cfg (django_srv_cfg s)) in
  let repository := {| repository_name := SERVICE_NAME +:+ "-repository" |} in
  declare (DRepository repository);;
  let image := {| image_name := SERVICE_NAME;
                  image_project := django_project (django_srv_cfg s);
                  image_repository := get_repository repository |} in
  declare (DImage image);;
  declare (DPushImage image "0.0.1");;
  let image_uri := image_uri_of image "0.0.1" in
  django_log_group ← construct LogGroup (SERVICE_NAME +:+ "-log-group")
    (DLogGroup (SERVICE_NAME +:+ "-log-group") {|
       log_group_name := "/ecs/" +:+ SERVICE_NAME;
       log_group_retention_in_days := 30 |});
  ecs_cluster ← construct Cluster (SERVICE_NAME +:+ "-cluster")
    (DCluster (SERVICE_NAME +:+ "-cluster") {|
       cluster_name := SERVICE_NAME +:+ "-cluster" |});
  the_db ← getattr "db" (db s);
  let template :=
    container_definitions_template SERVICE_NAME CONT_PORT
      image_uri (name_of django_log_group) (get_host the_db) in
  execution_role ← getitem (roles s) "ecs_execution_role";
  task_role ← getitem (roles s) "ecs_task_role";
  ecs_task_definition ← construct TaskDefinition (SERVICE_NAME +:+ "-tf")
    (DTaskDefinition (SERVICE_NAME +:+ "-tf") {|
       td_family := SERVICE_NAME;
       td_network_mode := "awsvpc";
       td_requires_compatibilities := ["FARGATE"];
       td_cpu := cpu (backend_cfg (django_srv_cfg s));
       td_memory := memory (backend_cfg (django_srv_cfg s));
       td_execution_role_arn := arn_of execution_role;
       td_task_role_arn := arn_of task_role;
       td_container_definitions := template |});
  sg ← getattr "ecs_sg" (ecs_sg s);
  tg ← getattr "django_tg" (django_tg s);
  construct Service (SERVICE_NAME +:+ "-service")
    (DService (SERVICE_NAME +:+ "-service") {|
       service_name_arg := SERVICE_NAME +:+ "-service";
       service_cluster := id_of ecs_cluster;
       service_task_definition := arn_of ecs_task_definition;
       service_launch_type := "FARGATE";
       service_desired_count := desired_count (backend_cfg (django_srv_cfg s));
       service_network_configuration := {|
         net_subnets := get_subnet_ids (networking s) PRIVATE;
         net_security_groups := [id_of sg];
         net_assign_public_ip := true |};
       service_load_balancers := [ {|
         slb_target_group_arn := arn_of tg;
         slb_container_name := SERVICE_NAME;
         slb_container_port := CONT_PORT |} ] |});;
  mret tt.

Definition create_resources (s : self) : Program self :=
  s ← create_networking s;
  s ← create_db s;
  create_ecs_service s;;
  mret s.

(** [ECSService(networking, django_srv_cfg, roles)]. *)
Definition __init__ (net : Networking) (cfg : DjangoServiceCfg)
    (rs : gmap string Resource) : Program self :=
  create_resources
    {| networking := net; django_srv_cfg := cfg; roles := rs;
       ecs_sg := None; django_tg := None; db := None |}.

End ECSService.

(** The graph declared by one run of the assembler in a fresh program, and
    whether the run raised. *)
Definition assemble (net : Networking) (cfg : DjangoServiceCfg)
    (rs : gmap string Resource) : Stack * result ECSService.self :=
  ECSService.__init__ net cfg rs [].

(** ** Reading a declared graph *)

Definition security_groups (st : Stack) : list (string * SecurityGroupArgs) :=
  omap (fun d => match d with DSecurityGroup n a => Some (n, a) | _ => None end) st.

Definition load_balancers (st : Stack) : list (string * LoadBalancerArgs) :=
  omap (fun d => match d with DLoadBalancer n a => Some (n, a) | _ => None end) st.

Definition target_groups (st : Stack) : list (string * TargetGroupArgs) :=
  omap (fun d => match d with DTargetGroup n a => Some (n, a) | _ => None end) st.

Definition listeners (st : Stack) : list (string * ListenerArgs) :=
  omap (fun d => match d with DListener n a => Some (n, a) | _ => None end) st.

Definition log_groups (st : Stack) : list (string * LogGroupArgs) :=
  omap (fun d => match d with DLogGroup n a => Some (n, a) | _ => None end) st.

Definition clusters (st : Stack) : list (string * ClusterArgs) :=
  omap (fun d => match d with DCluster n a => Some (n, a) | _ => None end) st.

Definition task_definitions (st : Stack) : list (string * TaskDefinitionArgs) :=
  omap (fun d => match d with DTaskDefinition n a => Some (n, a) | _ => None end) st.

Definition services (st : Stack) : list (string * ServiceArgs) :=
  omap (fun d => match d with DService n a => Some (n, a) | _ => None end) st.

Definition images (st : Stack) : list Image :=
  omap (fun d => match d with DImage i => Some i | _ => None end) st.

Definition pushed (st : Stack) : list (Image * string) :=
  omap (fun d => match d with DPushImage i v => Some (i, v) | _ => None end) st.

Definition data_stores (st : Stack) : list RDS :=
  omap (fun d => match d with DRDS db => Some db | _ => None end) st.

(** The logical name a declaration of the networking family (security
    groups, load balancer, target group, listener) is registered under. *)
Definition networking_name (d : Declaration) : option string :=
  match d with
  | DSecurityGroup n _ | DLoadBalancer n _ | DTargetGroup n _ | DListener n _ => Some n
  | _ => None
  end.

(** The logical name a declaration of the runtime-unit family (repository,
    log group, cluster, task definition, service) is registered under. *)
Definition runtime_name (d : Declaration) : option string :=
  match d with
  | DRepository r => Some (repository_name r)
  | DLogGroup n _ | DCluster n _ | DTaskDefinition n _ | DService n _ => Some n
  | _ => None
  end.

(** The rules that let everything through: port 0 to 0, protocol ["-1"]. *)
Definition all_traffic_egress : SecurityGroupEgressArgs :=
  {| egress_from_port := 0; egress_to_port := 0; egress_protocol := "-1";
     egress_cidr_blocks := Some ["0.0.0.0/0"] |}.

(** A configuration with a port that is not positive. *)
Definition non_positive_port (cfg : DjangoServiceCfg) : Prop :=
  (lb_port (backend_cfg cfg) <= 0)%Z \/ (container_port (backend_cfg cfg) <= 0)%Z.

(** A run that fails fast: it raises and has declared nothing. *)
Definition fails_fast (net : Networking) (cfg : DjangoServiceCfg)
    (rs : gmap string Resource) : Prop :=
  (assemble net cfg rs).1 = [] /\ exists e, (assemble net cfg rs).2 = Raised e.

(** The character-wise reading of [replace("_", "-")]. *)
Fixpoint hyphenate (s : string) : string :=
  match s with
  | EmptyString => EmptyString
  | String c s' =>
      String (if Ascii.eqb c Py.underscore then Py.hyphen else c) (hyphenate s')
  end.

(** Sample inputs. *)
Definition sample_net : Networking :=
  {| vpc_id := "vpc-0a1b"; public_subnet_ids := ["subnet-pub-a"; "subnet-pub-b"];
     private_subnet_ids := ["subnet-priv-a"] |}.

Definition sample_cfg : DjangoServiceCfg :=
  {| service_name := "django_app"; django_project := "backend";
     backend_cfg := {| lb_port := 8080; container_port := 8000;
                       cpu := 256; memory := 512; desired_count := 2 |} |}.

Definition sample_execution_role : Resource :=
  {| resource_type := Role; resource_name := "ecs-execution-role" |}.

Definition sample_task_role : Resource :=
  {| resource_type := Role; resource_name := "ecs-task-role" |}.

Definition sample_roles : gmap string Resource :=
  <["ecs_execution_role" := sample_execution_role]>
    (<["ecs_task_role" := sample_task_role]> ∅).

(** A configuration whose ports are not positive and whose CPU and memory
    are no limit any platform offers. *)
Definition malformed_cfg : DjangoServiceCfg :=
  {| service_name := "django_app"; django_project := "backend";
     backend_cfg := {| lb_port := 0; container_port := -1;
                       cpu := 7; memory := -3; desired_count := 1 |} |}.

(** Only the image reference has been assigned. *)
Definition only_image_resolved : Resolution :=
  fun p => match p with ImageUri _ _ => Some "registry/django_app:0.0.1" | _ => None end.

(** Only the data-store host has been assigned. *)
Definition only_host_resolved : Resolution :=
  fun p => match p with DbHost _ => Some "db.internal" | _ => None end.

(** Everything has been assigned. *)
Definition all_resolved : Resolution :=
  fun p =>
    match p with
    | ImageUri _ _ => Some "registry/django_app:0.0.1"
    | DbHost _ => Some "db.internal"
    | Attribute r a => Some (resource_name r +:+ "." +:+ a)
    end.

(** Expected renderings are written with single quotes standing for the
    double quotes of JSON. *)
Definition double_quoted (s : string) : string :=
  Py.replace "'" (String Py.dquote EmptyString) s.

(** ** Reading the links of a declared graph *)

(** The resource object a declaration creates, for the declarations that
    are resources of the provider. *)
Definition declared_resource (d : Declaration) : option Resource :=
  match d with
  | DSecurityGroup n _ => Some {| resource_type := SecurityGroup; resource_name := n |}
  | DLoadBalancer n _ => Some {| resource_type := LoadBalancer; resource_name := n |}
  | DTargetGroup n _ => Some {| resource_type := TargetGroup; resource_name := n |}
  | DListener n _ => Some {| resource_type := Listener; resource_name := n |}
  | DLogGroup n _ => Some {| resource_type := LogGroup; resource_name := n |}
  | DCluster n _ => Some {| resource_type := Cluster; resource_name := n |}
  | DTaskDefinition n _ => Some {| resource_type := TaskDefinition; resource_name := n |}
  | DService n _ => Some {| resource_type := Service; resource_name := n |}
  | DRepository _ | DImage _ | DPushImage _ _ | DRDS _ => None
  end.

(** The deferred identifiers of other resources that the arguments of a
    declaration hold (the container definitions, a rendered text, are not
    one of them). *)
Definition references (d : Declaration) : list (Output string) :=
  match d with
  | DSecurityGroup _ a =>
      flat_map (fun rule => default [] (ingress_security_groups rule)) (sg_ingress a)
  | DLoadBalancer _ a => lb_security_groups a
  | DListener _ a =>
      listener_load_balancer_arn a
        :: map action_target_group_arn (listener_default_actions a)
  | DTaskDefinition _ a => [td_execution_role_arn a; td_task_role_arn a]
  | DService _ a =>
      service_cluster a :: service_task_definition a
        :: net_security_groups (service_network_configuration a)
        ++ map slb_target_group_arn (service_load_balancers a)
  | _ => []
  end.

(** The resource objects handed to a collaborator. *)
Definition passed_resources (d : Declaration) : list Resource :=
  match d with
  | DRDS db => [rds_security_group db]
  | _ => []
  end.

(** Every reference of every declaration is the [id] or the [arn] of a
    resource in [known], which grows with each declaration: nothing refers
    to a resource declared later, or never. *)
Fixpoint well_linked (known : list Resource) (st : Stack) : Prop :=
  match st with
  | [] => True
  | d :: st' =>
      Forall (fun o => exists r, r ∈ known /\ (o = id_of r \/ o = arn_of r))
        (references d) /\
      Forall (fun r => r ∈ known) (passed_resources d) /\
      well_linked (known ++ option_list (declared_resource d)) st'
  end.

Definition is_networking (d : Declaration) : bool :=
  match networking_name d with Some _ => true | None => false end.

(** The declarations of the networking family, and the others. *)
Definition networking_declarations (st : Stack) : list Declaration :=
  List.filter is_networking st.

Definition other_declarations (st : Stack) : list Declaration :=
  List.filter (fun d => negb (is_networking d)) st.

(** Printable ASCII: the characters from the space to the tilde. *)
Definition printable (c : ascii) : bool :=
  ((32 <=? N_of_ascii c) && (N_of_ascii c <=? 126))%N.

Fixpoint all_printable (s : string) : bool :=
  match s with
  | EmptyString => true
  | String c s' => printable c && all_printable s'
  end.

(** Two resolutions that assign the same image reference, log group name
    and data-store host. *)
Definition agree_on (image : Image) (version : string) (log_group : Resource)
    (store : RDS) (rho rho' : Resolution) : Prop :=
  rho (ImageUri image version) = rho' (ImageUri image version) /\
  rho (Attribute log_group "name") = rho' (Attribute log_group "name") /\
  rho (DbHost store) = rho' (DbHost store).

(** More sample inputs: role mappings that miss an entry, and a
    configuration that differs from [sample_cfg] in everything but the
    hyphenated service name and the load-balancer port. *)
Definition roles_without_execution : gmap string Resource :=
  <["ecs_task_role" := sample_task_role]> ∅.

Definition roles_without_task : gmap string Resource :=
  <["ecs_execution_role" := sample_execution_role]> ∅.

Definition hyphenated_cfg : DjangoServiceCfg :=
  {| service_name := "django-app"; django_project := "other";
     backend_cfg := {| lb_port := 8080; container_port := 9000;
                       cpu := 1024; memory := 2048; desired_count := 5 |} |}.

(** The object before any method has run. *)
Definition fresh_self (net : Networking) (cfg : DjangoServiceCfg)
    (rs : gmap string Resource) : ECSService.self :=
  {| ECSService.networking := net; ECSService.django_srv_cfg := cfg;
     ECSService.roles := rs; ECSService.ecs_sg := None;
     ECSService.django_tg := None; ECSService.db := None |}.

Definition repositories (st : Stack) : list Repository :=
  omap (fun d => match d with DRepository r => Some r | _ => None end) st.

(** The image reference, the data-store host and the name of the log group
    have been assigned; no other attribute of any resource has. *)
Definition without_role_arns : Resolution :=
  fun p =>
    match p with
    | Attribute r a =>
        match resource_type r with
        | LogGroup => Some (resource_name r +:+ "." +:+ a)
        | _ => None
        end
    | other => all_resolved other
    end.

(** * Properties *)

(** ** The Python primitives on sample values *)

Example str_of_port : Py.str 8000 = "8000".
Proof. reflexivity. Qed.

Example str_of_negative : Py.str (-12) = "-12".
Proof. reflexivity. Qed.

Example str_of_zero : Py.str 0 = "0".
Proof. reflexivity. Qed.

Example replace_underscores : Py.replace "_" "-" "a_b__c_" = "a-b--c-".
Proof. reflexivity. Qed.

Example replace_longer_pattern : Py.replace "ab" "X" "aababab" = "aXXX".
Proof. reflexivity. Qed.

Example dumps_escapes :
  json.dumps
    (json.JList [
       json.JStr
         (String "a" (String Py.dquote (String "b" (String Py.backslash
            (String "c" (String "010" (String "009" (String "001"
               (String "127" (String "233" " ~"))))))))));
       json.JInt (-5); json.JInt 0; json.JBool true; json.JBool false;
       json.JDict []; json.JList []]) =
  double_quoted "['a\'b\\c\n\t\u0001\u007f\u00e9 ~', -5, 0, true, false, {}, []]".
Proof. reflexivity. Qed.

Example dumps_sample_container :
  json.dumps
    (ECSService.container_document "django_app" 8000
       "registry/django_app:0.0.1" "django_app-log-group.name" "db.internal") =
  double_quoted
    "[{'name': 'django_app', 'image': 'registry/django_app:0.0.1', 'essential': true, 'cpu': 10, 'memory': 512, 'portMappings': [{'containerPort': 8000, 'protocol': 'tcp'}], 'command': ['django_app', '8000'], 'environment': [{'name': 'ENVIRONMENT', 'value': 'PROD'}, {'name': 'DB_HOST', 'value': 'db.internal'}], 'logConfiguration': {'logDriver': 'awslogs', 'options': {'awslogs-group': 'django_app-log-group.name', 'awslogs-region': 'eu-west-1', 'awslogs-stream-prefix': 'django_app-log-stream'}}}]".
Proof. reflexivity. Qed.

(** ** Running the assembler symbolically *)

Ltac run_assembler :=
  cbv [assemble ECSService.__init__ ECSService.create_resources
       ECSService.create_networking ECSService.create_db
       ECSService.create_ecs_service ECSService.set_ecs_sg
       ECSService.set_django_tg ECSService.set_db
       ECSService.networking ECSService.django_srv_cfg ECSService.roles
       ECSService.ecs_sg ECSService.django_tg ECSService.db
       construct declare getattr getitem raise
       mbind mret Program_bind Program_ret app].

(** The run only branches on the two role lookups. *)
Ltac role_cases rs :=
  run_assembler;
  destruct (rs !! "ecs_execution_role") as [?er|] eqn:?Hexec;
  [ destruct (rs !! "ecs_task_role") as [?tr|] eqn:?Htask | ].

Ltac with_roles Hexec Htask :=
  run_assembler; rewrite Hexec, Htask.

Lemma sample_roles_execution :
  sample_roles !! "ecs_execution_role" = Some sample_execution_role.
Proof. reflexivity. Qed.

Lemma sample_roles_task :
  sample_roles !! "ecs_task_role" = Some sample_task_role.
Proof. reflexivity. Qed.

(** ** How a run ends *)

(** A run declares the networking, the data store, the repository, the
    image, the log group and the cluster before it looks up the roles; it
    either returns after thirteen declarations or raises [KeyError] on a
    role after eleven. *)
Lemma assemble_outcome (net : Networking) (cfg : DjangoServiceCfg)
    (rs : gmap string Resource) :
  ((exists s, (assemble net cfg rs).2 = Returned s) /\
   length (assemble net cfg rs).1 = 13 /\
   is_Some (rs !! "ecs_execution_role") /\ is_Some (rs !! "ecs_task_role")) \/
  ((assemble net cfg rs).2 = Raised (Py.KeyError "ecs_execution_role") /\
   length (assemble net cfg rs).1 = 11 /\
   rs !! "ecs_execution_role" = None) \/
  ((assemble net cfg rs).2 = Raised (Py.KeyError "ecs_task_role") /\
   length (assemble net cfg rs).1 = 11 /\
   rs !! "ecs_task_role" = None).
Proof.
  role_cases rs.
  - left. split; [eexists; reflexivity | ]. split; [reflexivity | ]. split; eexists; reflexivity.
  - right. right. repeat split.
  - right. left. repeat split.
Qed.

(** ** References to resources *)

(** A reference to an output attribute tells which resource it is read
    from: two resources whose attribute resolves alike under every
    assignment are the same resource. *)
Lemma attribute_inj (r1 r2 : Resource) (a : string) :
  Output.of_pending (Attribute r1 a) = Output.of_pending (Attribute r2 a) ->
  r1 = r2.
Proof.
  intros Hsame.
  pose (rho := fun p : Pending =>
                 match p with
                 | Attribute r _ => if decide (r = r1) then Some a else None
                 | _ => None
                 end).
  apply (f_equal (fun o : Output string => o rho)) in Hsame.
  unfold Output.of_pending, rho in Hsame.
  destruct (decide (r1 = r1)) as [_ | Hne]; [ | congruence].
  destruct (decide (r2 = r1)) as [Heq | _]; congruence.
Qed.

(** ** The load-balancer stack *)

(** C5: for every configuration (and whatever the roles), the one target
    group the assembler declares has the health check [/ping/], 5 healthy,
    2 unhealthy, timeout 2, interval 5, matcher 200. *)
Theorem health_check_fixed (net : Networking) (cfg : DjangoServiceCfg)
    (rs : gmap string Resource) :
  exists logical args,
    target_groups (assemble net cfg rs).1 = [(logical, args)] /\
    hc_path (tg_health_check args) = "/ping/" /\
    hc_healthy_threshold (tg_health_check args) = 5%Z /\
    hc_unhealthy_threshold (tg_health_check args) = 2%Z /\
    hc_timeout (tg_health_check args) = 2%Z /\
    hc_interval (tg_health_check args) = 5%Z /\
    hc_matcher (tg_health_check args) = "200".
Proof.
  role_cases rs; do 2 eexists; (split; [reflexivity | repeat split]).
Qed.

(** C6: the one listener listens on [lb_port], belongs to the load balancer
    of the same assembly, and its only default action forwards to the one
    target group declared in the same assembly; a resource its actions
    forward to is that target group. *)
Theorem listener_forwards_to_own_target_group (net : Networking)
    (cfg : DjangoServiceCfg) (rs : gmap string Resource) :
  exists l_logical l_args tg_logical tg_args lb_logical lb_args,
    listeners (assemble net cfg rs).1 = [(l_logical, l_args)] /\
    target_groups (assemble net cfg rs).1 = [(tg_logical, tg_args)] /\
    load_balancers (assemble net cfg rs).1 = [(lb_logical, lb_args)] /\
    listener_port l_args = lb_port (backend_cfg cfg) /\
    listener_load_balancer_arn l_args =
      arn_of {| resource_type := LoadBalancer; resource_name := lb_logical |} /\
    listener_default_actions l_args =
      [ {| action_type := "forward";
           action_target_group_arn :=
             arn_of {| resource_type := TargetGroup; resource_name := tg_logical |} |} ] /\
    forall r : Resource,
      Exists (fun action => action_target_group_arn action = arn_of r)
        (listener_default_actions l_args) ->
      r = {| resource_type := TargetGroup; resource_name := tg_logical |}.
Proof.
  role_cases rs; do 6 eexists; repeat (split; [reflexivity | ]);
    intros r Hr;
    (apply Exists_cons in Hr as [Hr | Hr];
     [ symmetry; exact (attribute_inj _ _ _ Hr) | inversion Hr ]).
Qed.

Lemma listener_forwards_to_own_target_group_witness :
  exists l_logical l_args tg_logical tg_args,
    listeners (assemble sample_net sample_cfg sample_roles).1 =
      [(l_logical, l_args)] /\
    target_groups (assemble sample_net sample_cfg sample_roles).1 =
      [(tg_logical, tg_args)] /\
    listener_port l_args = 8080%Z /\
    Exists (fun action =>
              action_target_group_arn action =
                arn_of {| resource_type := TargetGroup; resource_name := tg_logical |})
      (listener_default_actions l_args).
Proof.
  destruct (listener_forwards_to_own_target_group sample_net sample_cfg sample_roles)
    as (l_logical & l_args & tg_logical & tg_args & lb_logical & lb_args &
        Hl & Htg & _ & Hport & _ & Hactions & _).
  exists l_logical, l_args, tg_logical, tg_args.
  refine (conj Hl (conj Htg (conj Hport _))).
  rewrite Hactions. apply Exists_cons_hd. reflexivity.
Defined.

(** ** The security perimeter *)

(** C2: for every configuration the assembler declares exactly two security
    groups.  The first admits [lb_port] from [0.0.0.0/0]; the second admits
    any port and protocol, from the first group only and from no CIDR; both
    let all traffic out.  A resource named as an ingress source of the
    second group is the first group. *)
Theorem security_perimeter (net : Networking) (cfg : DjangoServiceCfg)
    (rs : gmap string Resource) :
  exists lb_logical lb_args svc_logical svc_args,
    security_groups (assemble net cfg rs).1 =
      [(lb_logical, lb_args); (svc_logical, svc_args)] /\
    sg_ingress lb_args =
      [ {| ingress_from_port := lb_port (backend_cfg cfg);
           ingress_to_port := lb_port (backend_cfg cfg);
           ingress_protocol := "tcp";
           ingress_cidr_blocks := Some ["0.0.0.0/0"];
           ingress_security_groups := None |} ] /\
    sg_egress lb_args = [all_traffic_egress] /\
    sg_ingress svc_args =
      [ {| ingress_from_port := 0;
           ingress_to_port := 0;
           ingress_protocol := "-1";
           ingress_cidr_blocks := None;
           ingress_security_groups :=
             Some [id_of {| resource_type := SecurityGroup;
                            resource_name := lb_logical |}] |} ] /\
    sg_egress svc_args = [all_traffic_egress] /\
    forall (rule : SecurityGroupIngressArgs) (sources : list (Output string))
           (r : Resource),
      rule ∈ sg_ingress svc_args ->
      ingress_security_groups rule = Some sources ->
      id_of r ∈ sources ->
      ingress_cidr_blocks rule = None /\
      r = {| resource_type := SecurityGroup; resource_name := lb_logical |}.
Proof.
  role_cases rs; do 4 eexists; repeat (split; [reflexivity | ]);
    intros rule sources r Hrule Hsources Hr;
    apply list_elem_of_singleton in Hrule; subst rule;
    injection Hsources as <-;
    apply list_elem_of_singleton in Hr;
    (split; [reflexivity | exact (attribute_inj _ _ _ Hr)]).
Qed.

Lemma security_perimeter_witness :
  exists lb_logical lb_args svc_logical svc_args,
    security_groups (assemble sample_net sample_cfg sample_roles).1 =
      [(lb_logical, lb_args); (svc_logical, svc_args)] /\
    exists rule sources,
      rule ∈ sg_ingress svc_args /\
      ingress_security_groups rule = Some sources /\
      id_of {| resource_type := SecurityGroup; resource_name := lb_logical |}
        ∈ sources /\
      ingress_cidr_blocks rule = None.
Proof.
  destruct (security_perimeter sample_net sample_cfg sample_roles)
    as (lb_logical & lb_args & svc_logical & svc_args &
        Hgroups & _ & _ & Hingress & _ & Honly).
  exists lb_logical, lb_args, svc_logical, svc_args.
  refine (conj Hgroups _).
  assert (exists rule sources,
            rule ∈ sg_ingress svc_args /\
            ingress_security_groups rule = Some sources /\
            id_of {| resource_type := SecurityGroup; resource_name := lb_logical |}
              ∈ sources) as (rule & sources & Hrule & Hsources & Hsource).
  { rewrite Hingress. do 2 eexists.
    split; [apply list_elem_of_here | ].
    split; [reflexivity | apply list_elem_of_here]. }
  exists rule, sources.
  exact (conj Hrule (conj Hsources (conj Hsource
           (proj1 (Honly rule sources _ Hrule Hsources Hsource))))).
Defined.

(** ** The image version *)

(** C10: whatever the configuration, the networking and the roles, the
    assembler pushes one image, under the version ["0.0.1"]. *)
Theorem pushed_version_fixed (net : Networking) (cfg : DjangoServiceCfg)
    (rs : gmap string Resource) :
  map snd (pushed (assemble net cfg rs).1) = ["0.0.1"].
Proof.
  role_cases rs; reflexivity.
Qed.

(** ** Validation *)

(** C1, as claimed, fails: a configuration with non-positive ports (and
    CPU and memory that are no resource limit) is assembled without any
    error, so the run does not fail fast. *)
Lemma malformed_cfg_is_assembled :
  non_positive_port malformed_cfg /\
  ~ fails_fast sample_net malformed_cfg sample_roles.
Proof.
  split.
  - left. cbn. lia.
  - intros [Hnone _]. revert Hnone.
    with_roles sample_roles_execution sample_roles_task. discriminate.
Qed.

(** C1, amended: the assembler checks nothing.  No run fails fast, and with
    both roles in the mapping the run returns, having declared its thirteen
    nodes with the ports, the CPU and the memory of the configuration passed
    through as they are. *)
Theorem no_validation (net : Networking) (cfg : DjangoServiceCfg)
    (rs : gmap string Resource) :
  ~ fails_fast net cfg rs /\
  forall er tr,
    rs !! "ecs_execution_role" = Some er ->
    rs !! "ecs_task_role" = Some tr ->
    (exists s, (assemble net cfg rs).2 = Returned s) /\
    length (assemble net cfg rs).1 = 13 /\
    map (fun x => listener_port x.2) (listeners (assemble net cfg rs).1) =
      [lb_port (backend_cfg cfg)] /\
    map (fun x => tg_port x.2) (target_groups (assemble net cfg rs).1) =
      [lb_port (backend_cfg cfg)] /\
    map (fun x => (td_cpu x.2, td_memory x.2)) (task_definitions (assemble net cfg rs).1) =
      [(cpu (backend_cfg cfg), memory (backend_cfg cfg))] /\
    map (fun x => map slb_container_port (service_load_balancers x.2))
        (services (assemble net cfg rs).1) =
      [[container_port (backend_cfg cfg)]].
Proof.
  split.
  - intros [Hnone _]. revert Hnone. role_cases rs; discriminate.
  - intros er tr Hexec Htask. with_roles Hexec Htask.
    split; [eexists; reflexivity | repeat split].
Qed.

Lemma no_validation_witness :
  ~ fails_fast sample_net malformed_cfg sample_roles /\
  (exists s, (assemble sample_net malformed_cfg sample_roles).2 = Returned s) /\
  length (assemble sample_net malformed_cfg sample_roles).1 = 13.
Proof.
  destruct (no_validation sample_net malformed_cfg sample_roles) as [Hfast Hrun].
  destruct (Hrun sample_execution_role sample_task_role
              sample_roles_execution sample_roles_task) as (Hret & Hlen & _).
  exact (conj Hfast (conj Hret Hlen)).
Defined.

(** ** The runtime unit *)

(** C7: with both roles in the mapping, the assembler declares one task
    definition (FARGATE, awsvpc, CPU and memory of the configuration, the
    two role references) and one service (desired count of the
    configuration, private subnets, the service security group, a public
    IP, bound to the target group on [container_port]). *)
Theorem runtime_unit (net : Networking) (cfg : DjangoServiceCfg)
    (rs : gmap string Resource) (er tr : Resource) :
  rs !! "ecs_execution_role" = Some er ->
  rs !! "ecs_task_role" = Some tr ->
  exists td_logical td_args svc_logical svc_args
         lb_sg sg_logical sg_args tg_logical tg_args cl_logical cl_args,
    task_definitions (assemble net cfg rs).1 = [(td_logical, td_args)] /\
    services (assemble net cfg rs).1 = [(svc_logical, svc_args)] /\
    security_groups (assemble net cfg rs).1 = [lb_sg; (sg_logical, sg_args)] /\
    target_groups (assemble net cfg rs).1 = [(tg_logical, tg_args)] /\
    clusters (assemble net cfg rs).1 = [(cl_logical, cl_args)] /\
    td_requires_compatibilities td_args = ["FARGATE"] /\
    td_network_mode td_args = "awsvpc" /\
    td_cpu td_args = cpu (backend_cfg cfg) /\
    td_memory td_args = memory (backend_cfg cfg) /\
    td_execution_role_arn td_args = arn_of er /\
    td_task_role_arn td_args = arn_of tr /\
    service_desired_count svc_args = desired_count (backend_cfg cfg) /\
    service_launch_type svc_args = "FARGATE" /\
    service_cluster svc_args =
      id_of {| resource_type := Cluster; resource_name := cl_logical |} /\
    service_task_definition svc_args =
      arn_of {| resource_type := TaskDefinition; resource_name := td_logical |} /\
    service_network_configuration svc_args =
      {| net_subnets := get_subnet_ids net PRIVATE;
         net_security_groups :=
           [id_of {| resource_type := SecurityGroup; resource_name := sg_logical |}];
         net_assign_public_ip := true |} /\
    service_load_balancers svc_args =
      [ {| slb_target_group_arn :=
             arn_of {| resource_type := TargetGroup; resource_name := tg_logical |};
           slb_container_name := service_name cfg;
           slb_container_port := container_port (backend_cfg cfg) |} ].
Proof.
  intros Hexec Htask. with_roles Hexec Htask.
  do 11 eexists; repeat (split; [reflexivity | ]); reflexivity.
Qed.

Lemma runtime_unit_witness :
  exists td_logical td_args svc_logical svc_args
         lb_sg sg_logical sg_args tg_logical tg_args cl_logical cl_args,
    task_definitions (assemble sample_net sample_cfg sample_roles).1 =
      [(td_logical, td_args)] /\
    services (assemble sample_net sample_cfg sample_roles).1 =
      [(svc_logical, svc_args)] /\
    security_groups (assemble sample_net sample_cfg sample_roles).1 =
      [lb_sg; (sg_logical, sg_args)] /\
    target_groups (assemble sample_net sample_cfg sample_roles).1 =
      [(tg_logical, tg_args)] /\
    clusters (assemble sample_net sample_cfg sample_roles).1 =
      [(cl_logical, cl_args)] /\
    td_requires_compatibilities td_args = ["FARGATE"] /\
    td_network_mode td_args = "awsvpc" /\
    td_cpu td_args = 256%Z /\
    td_memory td_args = 512%Z.
Proof.
  destruct (runtime_unit sample_net sample_cfg sample_roles
              sample_execution_role sample_task_role
              sample_roles_execution sample_roles_task)
    as (a & b & c & d & e & f & g & h & i & j & k &
        H1 & H2 & H3 & H4 & H5 & H6 & H7 & H8 & H9 & _).
  exists a, b, c, d, e, f, g, h, i, j, k.
  exact (conj H1 (conj H2 (conj H3 (conj H4 (conj H5 (conj H6 (conj H7 (conj H8 H9)))))))).
Defined.

(** ** The deferred rendering *)

Lemma render_args (SERVICE_NAME : string) (CONT_PORT : Z) (u l h : string) :
  ECSService.render SERVICE_NAME CONT_PORT
    (<["image_uri" := u]> (<["log_group_name" := l]> (<["host" := h]> ∅))) =
  Some (json.dumps (ECSService.container_document SERVICE_NAME CONT_PORT u l h)).
Proof.
  unfold ECSService.render.
  repeat (rewrite lookup_insert_eq || rewrite lookup_insert_ne by done).
  reflexivity.
Qed.

Lemma template_resolved (SERVICE_NAME : string) (CONT_PORT : Z)
    (image_uri log_group host : Output string) (rho : Resolution) (u l h : string) :
  image_uri rho = Some u -> log_group rho = Some l -> host rho = Some h ->
  ECSService.container_definitions_template SERVICE_NAME CONT_PORT
    image_uri log_group host rho =
  Some (json.dumps (ECSService.container_document SERVICE_NAME CONT_PORT u l h)).
Proof.
  intros Hu Hl Hh.
  unfold ECSService.container_definitions_template, Output.apply.
  cbn [Output.all]. rewrite Hu, Hl, Hh. cbn [mbind option_bind].
  apply render_args.
Qed.

Lemma template_pending (SERVICE_NAME : string) (CONT_PORT : Z)
    (image_uri log_group host : Output string) (rho : Resolution) :
  image_uri rho = None \/ host rho = None ->
  ECSService.container_definitions_template SERVICE_NAME CONT_PORT
    image_uri log_group host rho = None.
Proof.
  intros Hpending.
  unfold ECSService.container_definitions_template, Output.apply.
  cbn [Output.all].
  destruct Hpending as [H | H]; rewrite H.
  - reflexivity.
  - destruct (image_uri rho); [ | reflexivity].
    destruct (log_group rho); reflexivity.
Qed.

(** A rendered specification can only come from three resolved inputs. *)
Lemma template_inv (SERVICE_NAME : string) (CONT_PORT : Z)
    (image_uri log_group host : Output string) (rho : Resolution) (s : string) :
  ECSService.container_definitions_template SERVICE_NAME CONT_PORT
    image_uri log_group host rho = Some s ->
  exists u l h,
    image_uri rho = Some u /\ log_group rho = Some l /\ host rho = Some h /\
    s = json.dumps (ECSService.container_document SERVICE_NAME CONT_PORT u l h).
Proof.
  intros Hs.
  destruct (image_uri rho) as [u|] eqn:Hu;
    [ | rewrite template_pending in Hs by (left; exact Hu); discriminate Hs].
  destruct (host rho) as [h|] eqn:Hh;
    [ | rewrite template_pending in Hs by (right; exact Hh); discriminate Hs].
  destruct (log_group rho) as [l|] eqn:Hl.
  - rewrite (template_resolved _ _ _ _ _ _ u l h Hu Hl Hh) in Hs.
    exists u, l, h. repeat split; congruence.
  - unfold ECSService.container_definitions_template, Output.apply in Hs.
    cbn [Output.all] in Hs. rewrite Hu, Hl in Hs. discriminate Hs.
Qed.

(** ** The container specification *)

(** C3: for every configuration and every resolved triple (image reference,
    log group name, data-store host), the rendering is [json.dumps] of a
    list with exactly one entry, whose members are as fixed by the
    template: cpu 10, memory 512, one port mapping for [container_port],
    the command [[service_name, str(container_port)]], the two environment
    entries and the awslogs log configuration. *)
Theorem container_definitions_shape (cfg : DjangoServiceCfg)
    (image_uri log_group host : Output string) (rho : Resolution)
    (u l h : string) :
  image_uri rho = Some u -> log_group rho = Some l -> host rho = Some h ->
  exists entry,
    ECSService.container_definitions_template (service_name cfg)
      (container_port (backend_cfg cfg)) image_uri log_group host rho =
      Some (json.dumps (json.JList [entry])) /\
    json.member "name" entry = Some (json.JStr (service_name cfg)) /\
    json.member "image" entry = Some (json.JStr u) /\
    json.member "essential" entry = Some (json.JBool true) /\
    json.member "cpu" entry = Some (json.JInt 10) /\
    json.member "memory" entry = Some (json.JInt 512) /\
    json.member "portMappings" entry =
      Some (json.JList [
        json.JDict [("containerPort", json.JInt (container_port (backend_cfg cfg)));
                    ("protocol", json.JStr "tcp")]]) /\
    json.member "command" entry =
      Some (json.JList [json.JStr (service_name cfg);
                        json.JStr (Py.str (container_port (backend_cfg cfg)))]) /\
    json.member "environment" entry =
      Some (json.JList [
        json.JDict [("name", json.JStr "ENVIRONMENT"); ("value", json.JStr "PROD")];
        json.JDict [("name", json.JStr "DB_HOST"); ("value", json.JStr h)]]) /\
    json.member "logConfiguration" entry =
      Some (json.JDict [
        ("logDriver", json.JStr "awslogs");
        ("options", json.JDict [
           ("awslogs-group", json.JStr l);
           ("awslogs-region", json.JStr "eu-west-1");
           ("awslogs-stream-prefix",
            json.JStr (service_name cfg +:+ "-log-stream"))])]).
Proof.
  intros Hu Hl Hh.
  rewrite (template_resolved _ _ _ _ _ _ u l h Hu Hl Hh).
  unfold ECSService.container_document.
  eexists; split; [reflexivity | ].
  repeat split.
Qed.

Lemma container_definitions_shape_witness :
  exists entry,
    ECSService.container_definitions_template "django_app" 8000
      (image_uri_of
         {| image_name := "django_app"; image_project := "backend";
            image_repository :=
              get_repository {| repository_name := "django_app-repository" |} |}
         "0.0.1")
      (name_of {| resource_type := LogGroup; resource_name := "django_app-log-group" |})
      (get_host
         {| rds_networking := sample_net;
            rds_security_group :=
              {| resource_type := SecurityGroup; resource_name := "django-app-sg" |};
            rds_cfg := sample_cfg |})
      all_resolved =
      Some (json.dumps (json.JList [entry])) /\
    json.member "command" entry =
      Some (json.JList [json.JStr "django_app"; json.JStr "8000"]).
Proof.
  destruct (container_definitions_shape sample_cfg
              (image_uri_of
                 {| image_name := "django_app"; image_project := "backend";
                    image_repository :=
                      get_repository {| repository_name := "django_app-repository" |} |}
                 "0.0.1")
              (name_of {| resource_type := LogGroup;
                          resource_name := "django_app-log-group" |})
              (get_host
                 {| rds_networking := sample_net;
                    rds_security_group :=
                      {| resource_type := SecurityGroup;
                         resource_name := "django-app-sg" |};
                    rds_cfg := sample_cfg |})
              all_resolved
              "registry/django_app:0.0.1" "django_app-log-group.name" "db.internal"
              eq_refl eq_refl eq_refl)
    as (entry & Hrender & _ & _ & _ & _ & _ & _ & Hcommand & _).
  exists entry. exact (conj Hrender Hcommand).
Defined.

(** C4: in the assembled graph, the container definitions of the task
    definition wait for both the reference of the pushed image and the host
    of the data store: while either is unassigned there is no
    specification, and once they and the log group name are assigned there
    is one. *)
Theorem container_spec_waits_for_both (net : Networking) (cfg : DjangoServiceCfg)
    (rs : gmap string Resource) (er tr : Resource) (rho : Resolution) :
  rs !! "ecs_execution_role" = Some er ->
  rs !! "ecs_task_role" = Some tr ->
  exists td_logical td_args image version store lg_logical lg_args,
    task_definitions (assemble net cfg rs).1 = [(td_logical, td_args)] /\
    pushed (assemble net cfg rs).1 = [(image, version)] /\
    data_stores (assemble net cfg rs).1 = [store] /\
    log_groups (assemble net cfg rs).1 = [(lg_logical, lg_args)] /\
    (rho (ImageUri image version) = None \/ rho (DbHost store) = None ->
     td_container_definitions td_args rho = None) /\
    (forall u l h,
       rho (ImageUri image version) = Some u ->
       rho (Attribute {| resource_type := LogGroup; resource_name := lg_logical |}
              "name") = Some l ->
       rho (DbHost store) = Some h ->
       td_container_definitions td_args rho =
         Some (json.dumps
                 (ECSService.container_document (service_name cfg)
                    (container_port (backend_cfg cfg)) u l h))).
Proof.
  intros Hexec Htask. with_roles Hexec Htask.
  do 7 eexists; repeat (split; [reflexivity | ]).
  cbn [td_container_definitions]. split.
  - intros Hpending. apply template_pending. exact Hpending.
  - intros u l h Hu Hl Hh. apply template_resolved; assumption.
Qed.

Lemma container_spec_waits_for_both_witness :
  exists td_logical td_args,
    task_definitions (assemble sample_net sample_cfg sample_roles).1 =
      [(td_logical, td_args)] /\
    td_container_definitions td_args only_image_resolved = None.
Proof.
  destruct (container_spec_waits_for_both sample_net sample_cfg sample_roles
              sample_execution_role sample_task_role only_image_resolved
              sample_roles_execution sample_roles_task)
    as (td_logical & td_args & image & version & store & lg_logical & lg_args &
        Htd & _ & _ & _ & Hpending & _).
  exists td_logical, td_args.
  exact (conj Htd (Hpending (or_intror eq_refl))).
Defined.

(** The sample assembly under the three sample assignments. *)
Example sample_spec_without_host :
  map (fun x => td_container_definitions x.2 only_image_resolved)
      (task_definitions (assemble sample_net sample_cfg sample_roles).1) = [None].
Proof. vm_compute. reflexivity. Qed.

Example sample_spec_without_image :
  map (fun x => td_container_definitions x.2 only_host_resolved)
      (task_definitions (assemble sample_net sample_cfg sample_roles).1) = [None].
Proof. vm_compute. reflexivity. Qed.

Example sample_spec_resolved :
  map (fun x => td_container_definitions x.2 all_resolved)
      (task_definitions (assemble sample_net sample_cfg sample_roles).1) =
  [Some (double_quoted
    "[{'name': 'django_app', 'image': 'registry/django_app:0.0.1', 'essential': true, 'cpu': 10, 'memory': 512, 'portMappings': [{'containerPort': 8000, 'protocol': 'tcp'}], 'command': ['django_app', '8000'], 'environment': [{'name': 'ENVIRONMENT', 'value': 'PROD'}, {'name': 'DB_HOST', 'value': 'db.internal'}], 'logConfiguration': {'logDriver': 'awslogs', 'options': {'awslogs-group': 'django_app-log-group.name', 'awslogs-region': 'eu-west-1', 'awslogs-stream-prefix': 'django_app-log-stream'}}}]")].
Proof. vm_compute. reflexivity. Qed.

(** ** Names *)

Lemma replace_underscore (s : string) : Py.replace "_" "-" s = hyphenate s.
Proof.
  unfold Py.replace.
  induction s as [ | c s IH]; [reflexivity | ].
  cbn [Py.replace_from hyphenate String.prefix String.length Nat.sub].
  destruct (ascii_dec "_" c) as [<- | Hne].
  - rewrite IH. destruct s; reflexivity.
  - rewrite IH.
    destruct (Ascii.eqb_spec c Py.underscore) as [-> | _]; [ | reflexivity].
    exfalso. apply Hne. reflexivity.
Qed.

Lemma contains_app (c : ascii) (a b : string) :
  Py.contains c (a +:+ b) = Py.contains c a || Py.contains c b.
Proof.
  induction a as [ | d a IH]; [reflexivity | ].
  change (String d a +:+ b) with (String d (a +:+ b)).
  cbn [Py.contains]. destruct (Ascii.eqb c d); [reflexivity | exact IH].
Qed.

Lemma contains_hyphenate (s : string) :
  Py.contains Py.underscore (hyphenate s) = false.
Proof.
  induction s as [ | c s IH]; [reflexivity | ].
  cbn [hyphenate Py.contains]. rewrite IH.
  destruct (Ascii.eqb_spec c Py.underscore) as [-> | Hne]; [reflexivity | ].
  destruct (Ascii.eqb_spec Py.underscore c) as [<- | _]; [ | reflexivity].
  exfalso. apply Hne. reflexivity.
Qed.

Lemma hyphenate_length (s : string) :
  String.length (hyphenate s) = String.length s.
Proof.
  induction s as [ | c s IH]; [reflexivity | ]. cbn. rewrite IH. reflexivity.
Qed.

Lemma hyphenated_name_clean (s suffix : string) :
  Py.contains Py.underscore suffix = false ->
  Py.contains Py.underscore (hyphenate s +:+ suffix) = false.
Proof.
  intros Hsuffix. rewrite contains_app, contains_hyphenate, Hsuffix. reflexivity.
Qed.

Lemma raw_name_marked (s suffix : string) :
  Py.contains Py.underscore s = true ->
  Py.contains Py.underscore (s +:+ suffix) = true.
Proof.
  intros Hs. rewrite contains_app, Hs. reflexivity.
Qed.

(** C9: the networking declarations are registered (and named) under the
    service name with every underscore turned into a hyphen, the runtime
    declarations, the container name and the command under the service name
    as it is; when the service name has an underscore the two prefixes
    differ and no name of one family is a name of the other. *)
Theorem name_families (net : Networking) (cfg : DjangoServiceCfg)
    (rs : gmap string Resource) (er tr : Resource) :
  rs !! "ecs_execution_role" = Some er ->
  rs !! "ecs_task_role" = Some tr ->
  let raw := service_name cfg in
  let norm := hyphenate raw in
  let graph := (assemble net cfg rs).1 in
  omap networking_name graph =
    [norm +:+ "-lb-sg"; norm +:+ "-sg"; norm +:+ "-lb";
     norm +:+ "-service-tg"; norm +:+ "-lb-listener"] /\
  map (fun x => sg_name x.2) (security_groups graph) =
    [norm +:+ "-lb-sg"; norm +:+ "-ecs-sg"] /\
  map (fun x => lb_name x.2) (load_balancers graph) = [norm +:+ "-lb"] /\
  map (fun x => tg_name x.2) (target_groups graph) = [norm +:+ "-service-tg"] /\
  omap runtime_name graph =
    [raw +:+ "-repository"; raw +:+ "-log-group"; raw +:+ "-cluster";
     raw +:+ "-tf"; raw +:+ "-service"] /\
  map image_name (images graph) = [raw] /\
  map (fun x => td_family x.2) (task_definitions graph) = [raw] /\
  (forall rho s,
     Exists (fun x => td_container_definitions x.2 rho = Some s)
       (task_definitions graph) ->
     exists u l h entry,
       s = json.dumps (json.JList [entry]) /\
       json.member "name" entry = Some (json.JStr raw) /\
       json.member "image" entry = Some (json.JStr u) /\
       json.member "command" entry =
         Some (json.JList [json.JStr raw;
                           json.JStr (Py.str (container_port (backend_cfg cfg)))]) /\
       json.member "environment" entry =
         Some (json.JList [
           json.JDict [("name", json.JStr "ENVIRONMENT"); ("value", json.JStr "PROD")];
           json.JDict [("name", json.JStr "DB_HOST"); ("value", json.JStr h)]]) /\
       json.member "logConfiguration" entry =
         Some (json.JDict [
           ("logDriver", json.JStr "awslogs");
           ("options", json.JDict [
              ("awslogs-group", json.JStr l);
              ("awslogs-region", json.JStr "eu-west-1");
              ("awslogs-stream-prefix", json.JStr (raw +:+ "-log-stream"))])])) /\
  Py.contains Py.underscore norm = false /\
  String.length norm = String.length raw /\
  (Py.contains Py.underscore raw = true ->
   norm <> raw /\
   forall n r,
     n ∈ omap networking_name graph -> r ∈ omap runtime_name graph -> n <> r).
Proof.
  intros Hexec Htask raw norm graph. subst graph.
  with_roles Hexec Htask. rewrite replace_underscore. fold raw. fold norm.
  cbn [fst omap list_omap networking_name runtime_name security_groups
       load_balancers target_groups images task_definitions map snd
       sg_name lb_name tg_name image_name td_family repository_name].
  repeat (split; [reflexivity | ]).
  split; [ | split; [apply contains_hyphenate | split; [apply hyphenate_length | ]]].
  - intros rho s Hs.
    apply Exists_cons in Hs as [Hs | Hs]; [ | inversion Hs].
    cbn [snd td_container_definitions] in Hs.
    apply template_inv in Hs as (u & l & h & _ & _ & _ & ->).
    exists u, l, h. eexists. split; [reflexivity | repeat split].
  - intros Hraw. split.
    + intros Heq. pose proof (contains_hyphenate raw) as Hclean.
      fold norm in Hclean. rewrite Heq in Hclean. congruence.
    + intros n r Hn Hr Heq. subst r.
      assert (Py.contains Py.underscore n = false) as Hclean.
      { revert n Hn Hr.
        apply (proj1 (Forall_forall
                        (fun n => _ -> Py.contains Py.underscore n = false) _)).
        repeat constructor; intros _; apply hyphenated_name_clean; reflexivity. }
      assert (Py.contains Py.underscore n = true) as Hmarked.
      { revert n Hr Hn Hclean.
        apply (proj1 (Forall_forall
                        (fun n => _ -> _ -> Py.contains Py.underscore n = true) _)).
        repeat constructor; intros _ _; apply raw_name_marked; exact Hraw. }
      congruence.
Qed.

Lemma name_families_witness :
  omap networking_name (assemble sample_net sample_cfg sample_roles).1 =
    [hyphenate "django_app" +:+ "-lb-sg"; hyphenate "django_app" +:+ "-sg";
     hyphenate "django_app" +:+ "-lb"; hyphenate "django_app" +:+ "-service-tg";
     hyphenate "django_app" +:+ "-lb-listener"] /\
  hyphenate "django_app" <> "django_app".
Proof.
  pose proof (name_families sample_net sample_cfg sample_roles
                sample_execution_role sample_task_role
                sample_roles_execution sample_roles_task) as Hnames.
  cbv zeta in Hnames.
  destruct Hnames as (Hnet & _ & _ & _ & _ & _ & _ & _ & _ & _ & Hdiffer).
  exact (conj Hnet (proj1 (Hdiffer eq_refl))).
Defined.

(** * Further properties of the assembler *)

(** ** Missing roles *)

Lemma roles_without_execution_lookup :
  roles_without_execution !! "ecs_execution_role" = None.
Proof. reflexivity. Qed.

Lemma roles_without_task_execution :
  roles_without_task !! "ecs_execution_role" = Some sample_execution_role.
Proof. reflexivity. Qed.

Lemma roles_without_task_lookup :
  roles_without_task !! "ecs_task_role" = None.
Proof. reflexivity. Qed.

(** X1: when a role entry is missing the run raises [KeyError] on the first
    missing key, in the order execution role, task role; it has then
    declared neither a task definition nor a service, but it has declared
    the five networking resources, the data store, the repository, the
    image with its push, the log group and the cluster. *)
Theorem missing_role_raises_late (net : Networking) (cfg : DjangoServiceCfg)
    (rs : gmap string Resource) :
  rs !! "ecs_execution_role" = None \/ rs !! "ecs_task_role" = None ->
  (assemble net cfg rs).2 =
    Raised (Py.KeyError (match rs !! "ecs_execution_role" with
                         | None => "ecs_execution_role"
                         | Some _ => "ecs_task_role"
                         end)) /\
  task_definitions (assemble net cfg rs).1 = [] /\
  services (assemble net cfg rs).1 = [] /\
  length (networking_declarations (assemble net cfg rs).1) = 5 /\
  length (data_stores (assemble net cfg rs).1) = 1 /\
  length (images (assemble net cfg rs).1) = 1 /\
  length (pushed (assemble net cfg rs).1) = 1 /\
  length (log_groups (assemble net cfg rs).1) = 1 /\
  length (clusters (assemble net cfg rs).1) = 1 /\
  length (assemble net cfg rs).1 = 11.
Proof.
  intros Hmissing. role_cases rs.
  - destruct Hmissing; discriminate.
  - repeat split.
  - repeat split.
Qed.

Lemma missing_role_raises_late_witness :
  (assemble sample_net sample_cfg roles_without_task).2 =
    Raised (Py.KeyError "ecs_task_role") /\
  length (assemble sample_net sample_cfg roles_without_task).1 = 11.
Proof.
  destruct (missing_role_raises_late sample_net sample_cfg roles_without_task
              (or_intror roles_without_task_lookup))
    as (Hraised & _ & _ & _ & _ & _ & _ & _ & _ & Hlength).
  exact (conj Hraised Hlength).
Defined.

(** X2: what a failed run leaves behind is the beginning of what a
    successful run declares: with the same networking and configuration,
    the graph of a run that misses a role is the first eleven declarations
    of the graph of a run that has both. *)
Theorem failed_run_is_prefix (net : Networking) (cfg : DjangoServiceCfg)
    (rs rs' : gmap string Resource) (er tr : Resource) :
  rs !! "ecs_execution_role" = None \/ rs !! "ecs_task_role" = None ->
  rs' !! "ecs_execution_role" = Some er ->
  rs' !! "ecs_task_role" = Some tr ->
  (assemble net cfg rs).1 = take 11 (assemble net cfg rs').1 /\
  length (assemble net cfg rs').1 = 13.
Proof.
  intros Hmissing Hexec Htask.
  run_assembler. rewrite Hexec, Htask.
  destruct (rs !! "ecs_execution_role") as [er0|] eqn:Hexec0;
    [ destruct (rs !! "ecs_task_role") as [tr0|] eqn:Htask0 | ].
  - destruct Hmissing; discriminate.
  - split; reflexivity.
  - split; reflexivity.
Qed.

Lemma failed_run_is_prefix_witness :
  (assemble sample_net sample_cfg roles_without_execution).1 =
    take 11 (assemble sample_net sample_cfg sample_roles).1.
Proof.
  exact (proj1 (failed_run_is_prefix sample_net sample_cfg
                  roles_without_execution sample_roles
                  sample_execution_role sample_task_role
                  (or_introl roles_without_execution_lookup)
                  sample_roles_execution sample_roles_task)).
Defined.

(** X3: the run returns exactly when the mapping has both role entries,
    and the only exceptions it raises are the two [KeyError]s: no attribute
    of the object is read before the method that sets it has run. *)
Theorem returns_iff_both_roles (net : Networking) (cfg : DjangoServiceCfg)
    (rs : gmap string Resource) :
  ((exists s, (assemble net cfg rs).2 = Returned s) <->
   is_Some (rs !! "ecs_execution_role") /\ is_Some (rs !! "ecs_task_role")) /\
  (forall e, (assemble net cfg rs).2 = Raised e ->
     e = Py.KeyError "ecs_execution_role" \/ e = Py.KeyError "ecs_task_role").
Proof.
  role_cases rs; cbn [snd]; split.
  - split; [intros _; split; eexists; reflexivity | intros _; eexists; reflexivity].
  - intros e He. discriminate He.
  - split; [intros [s Hs]; discriminate Hs | intros [_ [x Hx]]; discriminate Hx].
  - intros e He. injection He as <-. right. reflexivity.
  - split; [intros [s Hs]; discriminate Hs | intros [[x Hx] _]; discriminate Hx].
  - intros e He. injection He as <-. left. reflexivity.
Qed.

Lemma returns_iff_both_roles_witness :
  exists s, (assemble sample_net sample_cfg sample_roles).2 = Returned s.
Proof.
  apply (proj1 (returns_iff_both_roles sample_net sample_cfg sample_roles)).
  split; eexists; [exact sample_roles_execution | exact sample_roles_task].
Defined.

(** X4: the object a successful run returns keeps its three constructor
    arguments, and its attributes are the resources of the run: [ecs_sg] is
    the second security group declared, [django_tg] the target group, and
    [db] the data store, which was built with that security group. *)
Theorem returned_object (net : Networking) (cfg : DjangoServiceCfg)
    (rs : gmap string Resource) (s : ECSService.self) :
  (assemble net cfg rs).2 = Returned s ->
  ECSService.networking s = net /\
  ECSService.django_srv_cfg s = cfg /\
  ECSService.roles s = rs /\
  (exists lb_sg sg_logical sg_args tg_logical tg_args store,
     security_groups (assemble net cfg rs).1 = [lb_sg; (sg_logical, sg_args)] /\
     target_groups (assemble net cfg rs).1 = [(tg_logical, tg_args)] /\
     data_stores (assemble net cfg rs).1 = [store] /\
     ECSService.ecs_sg s =
       Some {| resource_type := SecurityGroup; resource_name := sg_logical |} /\
     ECSService.django_tg s =
       Some {| resource_type := TargetGroup; resource_name := tg_logical |} /\
     ECSService.db s = Some store /\
     Some (rds_security_group store) = ECSService.ecs_sg s).
Proof.
  role_cases rs; cbn [snd]; intros Hs; [ | discriminate Hs | discriminate Hs].
  injection Hs as <-.
  repeat (split; [reflexivity | ]).
  do 6 eexists. repeat (split; [reflexivity | ]). reflexivity.
Qed.

Lemma returned_object_witness :
  exists s,
    (assemble sample_net sample_cfg sample_roles).2 = Returned s /\
    ECSService.roles s = sample_roles /\
    ECSService.django_srv_cfg s = sample_cfg.
Proof.
  assert (exists s, (assemble sample_net sample_cfg sample_roles).2 = Returned s)
    as [s Hrun].
  { with_roles sample_roles_execution sample_roles_task. eexists. reflexivity. }
  exists s.
  destruct (returned_object sample_net sample_cfg sample_roles s Hrun)
    as (_ & Hcfg & Hroles & _).
  exact (conj Hrun (conj Hroles Hcfg)).
Defined.

(** ** Placement *)

(** X5: both security groups and the target group live in the VPC the
    network provider reports; the load balancer is an internet-facing
    application load balancer placed in the public subnets and guarded by
    the first security group only; the target group receives on [lb_port]
    over HTTP with ip targets. *)
Theorem network_placement (net : Networking) (cfg : DjangoServiceCfg)
    (rs : gmap string Resource) :
  exists lb_sg_logical lb_sg_args svc_sg tg_logical tg_args lb_logical lb_args,
    security_groups (assemble net cfg rs).1 =
      [(lb_sg_logical, lb_sg_args); svc_sg] /\
    target_groups (assemble net cfg rs).1 = [(tg_logical, tg_args)] /\
    load_balancers (assemble net cfg rs).1 = [(lb_logical, lb_args)] /\
    sg_vpc_id lb_sg_args = get_vpc_id net /\
    sg_vpc_id svc_sg.2 = get_vpc_id net /\
    tg_vpc_id tg_args = get_vpc_id net /\
    lb_subnets lb_args = get_subnet_ids net PUBLIC /\
    lb_internal lb_args = false /\
    lb_load_balancer_type lb_args = "application" /\
    lb_security_groups lb_args =
      [id_of {| resource_type := SecurityGroup; resource_name := lb_sg_logical |}] /\
    tg_port tg_args = lb_port (backend_cfg cfg) /\
    tg_protocol tg_args = "HTTP" /\
    tg_target_type tg_args = "ip".
Proof.
  role_cases rs; do 7 eexists; repeat (split; [reflexivity | ]); reflexivity.
Qed.

(** ** The collaborators *)

(** X6: every run, also one that later fails on a role, provisions exactly
    one data store; it is built from the networking and the configuration
    the assembler was given and from the second security group, the one
    that only admits the load balancer. *)
Theorem data_store_wiring (net : Networking) (cfg : DjangoServiceCfg)
    (rs : gmap string Resource) :
  exists store lb_sg lb_sg_args sg_logical sg_args,
    data_stores (assemble net cfg rs).1 = [store] /\
    security_groups (assemble net cfg rs).1 =
      [(lb_sg, lb_sg_args); (sg_logical, sg_args)] /\
    rds_networking store = net /\
    rds_cfg store = cfg /\
    rds_security_group store =
      {| resource_type := SecurityGroup; resource_name := sg_logical |} /\
    map ingress_security_groups (sg_ingress sg_args) =
      [Some [id_of {| resource_type := SecurityGroup; resource_name := lb_sg |}]].
Proof.
  role_cases rs; do 5 eexists; repeat (split; [reflexivity | ]); reflexivity.
Qed.

(** X7: every run creates one repository, named after the service, builds
    one image from the service name, the project of the configuration and
    that repository, and pushes that image once. *)
Theorem image_pipeline (net : Networking) (cfg : DjangoServiceCfg)
    (rs : gmap string Resource) :
  exists repository image,
    repositories (assemble net cfg rs).1 = [repository] /\
    images (assemble net cfg rs).1 = [image] /\
    map fst (pushed (assemble net cfg rs).1) = [image] /\
    repository_name repository = service_name cfg +:+ "-repository" /\
    image_name image = service_name cfg /\
    image_project image = django_project cfg /\
    image_repository image = get_repository repository.
Proof.
  role_cases rs; do 2 eexists; repeat (split; [reflexivity | ]); reflexivity.
Qed.

(** ** Links *)

Ltac known_resource :=
  repeat first [ apply list_elem_of_here | apply list_elem_of_further ].

Ltac linked_reference :=
  eexists; split;
  [ | first [ left; reflexivity | right; reflexivity ] ]; known_resource.

(** X8: in the graph of a successful run every reference points backwards:
    each [id] or [arn] held by a declaration, and each resource handed to
    the data store, belongs to one of the two roles or to a resource
    declared earlier in the same run. *)
Theorem references_point_backwards (net : Networking) (cfg : DjangoServiceCfg)
    (rs : gmap string Resource) (er tr : Resource) :
  rs !! "ecs_execution_role" = Some er ->
  rs !! "ecs_task_role" = Some tr ->
  well_linked [er; tr] (assemble net cfg rs).1.
Proof.
  intros Hexec Htask. with_roles Hexec Htask.
  cbn [fst well_linked references passed_resources declared_resource
       option_list app flat_map map default sg_ingress ingress_security_groups
       lb_security_groups listener_load_balancer_arn listener_default_actions
       action_target_group_arn td_execution_role_arn td_task_role_arn
       service_cluster service_task_definition service_network_configuration
       net_security_groups service_load_balancers slb_target_group_arn
       rds_security_group].
  repeat split;
    repeat first [ apply Forall_nil_2 | apply Forall_cons_2 ];
    first [ linked_reference | known_resource ].
Qed.

Lemma references_point_backwards_witness :
  well_linked [sample_execution_role; sample_task_role]
    (assemble sample_net sample_cfg sample_roles).1.
Proof.
  exact (references_point_backwards sample_net sample_cfg sample_roles
           sample_execution_role sample_task_role
           sample_roles_execution sample_roles_task).
Defined.

(** ** Names, again *)

Lemma append_cancel (s a b : string) : s +:+ a = s +:+ b -> a = b.
Proof.
  induction s as [ | c s IH]; intros Heq; [exact Heq | ].
  apply IH. injection Heq as Heq. exact Heq.
Qed.

Ltac not_among_the_rest :=
  let Hin := fresh "Hin" in
  intros Hin;
  repeat (apply elem_of_cons in Hin as [Hin | Hin];
          [ solve [ discriminate Hin
                  | injection Hin as Hin; apply append_cancel in Hin;
                    discriminate Hin ]
          | ]);
  apply elem_of_nil in Hin; exact Hin.

(** X9: no two resources of one run share their class and logical name,
    for any service name: the run never collides with itself. *)
Theorem logical_names_are_distinct (net : Networking) (cfg : DjangoServiceCfg)
    (rs : gmap string Resource) :
  NoDup (omap declared_resource (assemble net cfg rs).1).
Proof.
  role_cases rs;
    cbn [fst omap list_omap declared_resource];
    repeat (apply NoDup_cons; split; [not_among_the_rest | ]);
    apply NoDup_nil_2.
Qed.

Lemma replace_without_underscore (s : string) :
  Py.contains Py.underscore s = false -> Py.replace "_" "-" s = s.
Proof.
  rewrite replace_underscore.
  induction s as [ | c s IH]; [reflexivity | ].
  cbn [Py.contains hyphenate]. intros Hclean.
  destruct (Ascii.eqb_spec Py.underscore c) as [ | Hne]; [discriminate Hclean | ].
  rewrite (IH Hclean).
  destruct (Ascii.eqb_spec c Py.underscore) as [-> | _]; [ | reflexivity].
  exfalso. apply Hne. reflexivity.
Qed.

(** X10: for a service name without an underscore the normalisation changes
    nothing, so the networking family is registered under the service name
    itself, like the runtime family. *)
Theorem plain_name_is_kept (net : Networking) (cfg : DjangoServiceCfg)
    (rs : gmap string Resource) :
  Py.contains Py.underscore (service_name cfg) = false ->
  omap networking_name (assemble net cfg rs).1 =
    [service_name cfg +:+ "-lb-sg"; service_name cfg +:+ "-sg";
     service_name cfg +:+ "-lb"; service_name cfg +:+ "-service-tg";
     service_name cfg +:+ "-lb-listener"].
Proof.
  intros Hclean. role_cases rs;
    rewrite (replace_without_underscore _ Hclean); reflexivity.
Qed.

Lemma plain_name_is_kept_witness :
  omap networking_name (assemble sample_net hyphenated_cfg sample_roles).1 =
    ["django-app-lb-sg"; "django-app-sg"; "django-app-lb";
     "django-app-service-tg"; "django-app-lb-listener"].
Proof.
  exact (plain_name_is_kept sample_net hyphenated_cfg sample_roles eq_refl).
Defined.

(** ** What the networking depends on *)

(** X11: the five networking declarations are fixed by the network
    provider, the load-balancer port and the hyphenated service name.  Two
    configurations that agree on these get the same security groups, load
    balancer, target group and listener, whatever their container port,
    CPU, memory, replica count, project and roles, and even when the
    service names differ in underscores. *)
Theorem networking_depends_on (net : Networking) (cfg cfg' : DjangoServiceCfg)
    (rs rs' : gmap string Resource) :
  hyphenate (service_name cfg) = hyphenate (service_name cfg') ->
  lb_port (backend_cfg cfg) = lb_port (backend_cfg cfg') ->
  networking_declarations (assemble net cfg rs).1 =
    networking_declarations (assemble net cfg' rs').1 /\
  length (networking_declarations (assemble net cfg rs).1) = 5.
Proof.
  intros Hname Hport.
  run_assembler. rewrite !replace_underscore, Hname, Hport.
  destruct (rs !! "ecs_execution_role"); [destruct (rs !! "ecs_task_role") | ];
    (destruct (rs' !! "ecs_execution_role");
     [destruct (rs' !! "ecs_task_role") | ]);
    cbn [fst networking_declarations List.filter is_networking networking_name];
    split; reflexivity.
Qed.

Lemma networking_depends_on_witness :
  service_name sample_cfg <> service_name hyphenated_cfg /\
  networking_declarations (assemble sample_net sample_cfg sample_roles).1 =
    networking_declarations
      (assemble sample_net hyphenated_cfg roles_without_task).1.
Proof.
  split; [discriminate | ].
  exact (proj1 (networking_depends_on sample_net sample_cfg hyphenated_cfg
                  sample_roles roles_without_task eq_refl eq_refl)).
Defined.

(** ** What the container specification reads *)

Lemma template_agree (SERVICE_NAME : string) (CONT_PORT : Z)
    (image_uri log_group host : Output string) (rho rho' : Resolution) :
  image_uri rho = image_uri rho' ->
  log_group rho = log_group rho' ->
  host rho = host rho' ->
  ECSService.container_definitions_template SERVICE_NAME CONT_PORT
    image_uri log_group host rho =
  ECSService.container_definitions_template SERVICE_NAME CONT_PORT
    image_uri log_group host rho'.
Proof.
  intros Hu Hl Hh.
  unfold ECSService.container_definitions_template, Output.apply.
  cbn [Output.all]. rewrite Hu, Hl, Hh. reflexivity.
Qed.

(** X12: the container definitions of the assembled task definition read
    three identifiers and no other: under two assignments that agree on the
    reference of the pushed image, the name of the log group and the host
    of the data store they are the same, rendered or not, whatever else the
    assignments differ in. *)
Theorem container_spec_reads_three_identifiers (net : Networking)
    (cfg : DjangoServiceCfg) (rs : gmap string Resource) (er tr : Resource)
    (rho rho' : Resolution) :
  rs !! "ecs_execution_role" = Some er ->
  rs !! "ecs_task_role" = Some tr ->
  exists td_logical td_args image version store lg_logical lg_args,
    task_definitions (assemble net cfg rs).1 = [(td_logical, td_args)] /\
    pushed (assemble net cfg rs).1 = [(image, version)] /\
    data_stores (assemble net cfg rs).1 = [store] /\
    log_groups (assemble net cfg rs).1 = [(lg_logical, lg_args)] /\
    (agree_on image version
       {| resource_type := LogGroup; resource_name := lg_logical |} store
       rho rho' ->
     td_container_definitions td_args rho = td_container_definitions td_args rho').
Proof.
  intros Hexec Htask. with_roles Hexec Htask.
  do 7 eexists; repeat (split; [reflexivity | ]).
  intros (Hu & Hl & Hh). cbn [td_container_definitions].
  apply template_agree; assumption.
Qed.

Lemma container_spec_reads_three_identifiers_witness :
  exists td_logical td_args s,
    task_definitions (assemble sample_net sample_cfg sample_roles).1 =
      [(td_logical, td_args)] /\
    td_container_definitions td_args without_role_arns = Some s /\
    td_container_definitions td_args all_resolved = Some s /\
    without_role_arns (Attribute sample_execution_role "arn") = None /\
    all_resolved (Attribute sample_execution_role "arn") =
      Some "ecs-execution-role.arn".
Proof.
  destruct (container_spec_reads_three_identifiers sample_net sample_cfg
              sample_roles sample_execution_role sample_task_role
              without_role_arns all_resolved
              sample_roles_execution sample_roles_task)
    as (td_logical & td_args & image & version & store & lg_logical & lg_args &
        Htd & _ & _ & _ & Hagree).
  assert (agree_on image version
            {| resource_type := LogGroup; resource_name := lg_logical |} store
            without_role_arns all_resolved) as Hagreement.
  { repeat split. }
  assert (td_container_definitions td_args all_resolved =
            Some (json.dumps
                    (ECSService.container_document "django_app" 8000
                       "registry/django_app:0.0.1" "django_app-log-group.name"
                       "db.internal"))) as Hrendered.
  { revert Htd. with_roles sample_roles_execution sample_roles_task.
    cbn [fst task_definitions omap list_omap]. intros Htd.
    injection Htd as _ <-. vm_compute. reflexivity. }
  exists td_logical, td_args. eexists.
  refine (conj Htd (conj _ (conj Hrendered (conj eq_refl eq_refl)))).
  rewrite (Hagree Hagreement). exact Hrendered.
Defined.

(** ** The order of the three steps *)

(** X13: the steps of [create_resources] depend on each other through the
    attributes of the object.  [create_networking] never raises and
    declares five resources; [create_db] on an object whose networking has
    not been created raises [AttributeError] and declares nothing;
    [create_ecs_service] right after [create_networking], without
    [create_db], raises [AttributeError] only after it has declared the
    repository, the image with its push, the log group and the cluster. *)
Theorem steps_need_their_order (net : Networking) (cfg : DjangoServiceCfg)
    (rs : gmap string Resource) (st : Stack) :
  (exists s declared,
     ECSService.create_networking (fresh_self net cfg rs) st =
       (st ++ declared, Returned s) /\
     length declared = 5 /\
     is_Some (ECSService.ecs_sg s) /\ is_Some (ECSService.django_tg s) /\
     ECSService.db s = None /\
     (exists declared',
        ECSService.create_ecs_service s (st ++ declared) =
          (st ++ declared ++ declared', Raised (Py.AttributeError "db")) /\
        length declared' = 5 /\
        task_definitions declared' = [] /\ services declared' = [])) /\
  ECSService.create_db (fresh_self net cfg rs) st =
    (st, Raised (Py.AttributeError "ecs_sg")).
Proof.
  split; [ | reflexivity].
  unfold fresh_self.
  cbv [ECSService.create_networking ECSService.create_ecs_service
       ECSService.set_ecs_sg ECSService.set_django_tg
       ECSService.networking ECSService.django_srv_cfg ECSService.roles
       ECSService.ecs_sg ECSService.django_tg ECSService.db
       construct declare getattr getitem raise
       mbind mret Program_bind Program_ret].
  do 2 eexists. split.
  - rewrite <- !app_assoc. cbn [app]. reflexivity.
  - split; [reflexivity | ]. split; [eexists; reflexivity | ].
    split; [eexists; reflexivity | ]. split; [reflexivity | ].
    eexists. split.
    + rewrite <- !app_assoc. cbn [app]. reflexivity.
    + repeat split.
Qed.

(** A reference to a resource that was never declared is not linked. *)
Example dangling_reference_is_not_linked :
  ~ well_linked []
      [DLoadBalancer "lb"
         {| lb_name := "lb"; lb_load_balancer_type := "application";
            lb_internal := false;
            lb_security_groups :=
              [id_of {| resource_type := SecurityGroup; resource_name := "sg" |}];
            lb_subnets := [] |}].
Proof.
  intros [Hrefs _]. apply Forall_cons_1 in Hrefs as [(r & Hr & _) _].
  apply elem_of_nil in Hr. exact Hr.
Qed.

(** ** The rendered text *)

Lemma all_printable_app (a b : string) :
  all_printable (a +:+ b) = all_printable a && all_printable b.
Proof.
  induction a as [ | c a IH]; [reflexivity | ].
  change (String c a +:+ b) with (String c (a +:+ b)).
  cbn [all_printable]. rewrite IH, andb_assoc. reflexivity.
Qed.

Lemma escape_char_printable (c : ascii) :
  all_printable (json.escape_char c) = true.
Proof.
  destruct c as [[] [] [] [] [] [] [] []]; reflexivity.
Qed.

Lemma escape_printable (s : string) : all_printable (json.escape s) = true.
Proof.
  induction s as [ | c s IH]; [reflexivity | ].
  cbn [json.escape]. rewrite all_printable_app, escape_char_printable, IH.
  reflexivity.
Qed.

Lemma encode_string_printable (s : string) :
  all_printable (json.encode_string s) = true.
Proof.
  unfold json.encode_string. cbn [all_printable].
  rewrite all_printable_app, escape_printable. reflexivity.
Qed.

Lemma string_of_uint_printable (d : Decimal.uint) :
  all_printable (NilEmpty.string_of_uint d) = true.
Proof.
  induction d; cbn [NilEmpty.string_of_uint all_printable]; try rewrite IHd; reflexivity.
Qed.

Lemma str_printable (n : Z) : all_printable (Py.str n) = true.
Proof.
  unfold Py.str, NilZero.string_of_int.
  destruct (Z.to_int n) as [d | d]; unfold NilZero.string_of_uint;
    destruct d; cbn [all_printable NilEmpty.string_of_uint];
    try rewrite string_of_uint_printable; reflexivity.
Qed.

Lemma container_document_printable (SERVICE_NAME : string) (CONT_PORT : Z)
    (u l h : string) :
  all_printable
    (json.dumps (ECSService.container_document SERVICE_NAME CONT_PORT u l h)) = true.
Proof.
  unfold ECSService.container_document. cbn [json.dumps].
  repeat (rewrite all_printable_app
          || rewrite encode_string_printable
          || rewrite str_printable).
  reflexivity.
Qed.

(** X14: for a service name, an image reference, a log group name and a
    host made of characters with code points below 256 (the strings of this
    development, for which [json.dumps] writes two-character escapes or
    [\u00XX]), control characters, quotes, backslashes and non-ASCII
    characters included, the container definitions the assembled task
    definition resolves to consist of printable ASCII only.  Characters
    with higher code points are not covered. *)
Theorem container_spec_is_printable_ascii (net : Networking)
    (cfg : DjangoServiceCfg) (rs : gmap string Resource) (rho : Resolution)
    (s : string) :
  Exists (fun x => td_container_definitions x.2 rho = Some s)
    (task_definitions (assemble net cfg rs).1) ->
  all_printable s = true.
Proof.
  role_cases rs; cbn [fst task_definitions omap list_omap];
    intros Hs; [ | inversion Hs | inversion Hs].
  apply Exists_cons in Hs as [Hs | Hs]; [ | inversion Hs].
  cbn [snd td_container_definitions] in Hs.
  apply template_inv in Hs as (u & l & h & _ & _ & _ & ->).
  apply container_document_printable.
Qed.

Lemma container_spec_is_printable_ascii_witness :
  exists s,
    Exists (fun x => td_container_definitions x.2 all_resolved = Some s)
      (task_definitions (assemble sample_net sample_cfg sample_roles).1) /\
    all_printable s = true.
Proof.
  assert (exists s,
            Exists (fun x => td_container_definitions x.2 all_resolved = Some s)
              (task_definitions (assemble sample_net sample_cfg sample_roles).1))
    as [s Hs].
  { with_roles sample_roles_execution sample_roles_task.
    eexists. apply Exists_cons_hd. vm_compute. reflexivity. }
  exists s.
  exact (conj Hs (container_spec_is_printable_ascii sample_net sample_cfg
                    sample_roles all_resolved s Hs)).
Defined.

(** ** Ports and names across the graph *)

(** X16: the pieces of the graph agree with each other.  The port the
    load-balancer security group admits is the port of the listener and of
    the target group; and the load-balancer binding of the service names
    the container and the port that the rendered container definition
    declares, the port being also the last argument of its command. *)
Theorem ports_agree (net : Networking) (cfg : DjangoServiceCfg)
    (rs : gmap string Resource) (er tr : Resource) :
  rs !! "ecs_execution_role" = Some er ->
  rs !! "ecs_task_role" = Some tr ->
  exists lb_sg svc_sg listener tg svc binding td,
    security_groups (assemble net cfg rs).1 = [lb_sg; svc_sg] /\
    listeners (assemble net cfg rs).1 = [listener] /\
    target_groups (assemble net cfg rs).1 = [tg] /\
    services (assemble net cfg rs).1 = [svc] /\
    service_load_balancers svc.2 = [binding] /\
    task_definitions (assemble net cfg rs).1 = [td] /\
    map (fun rule => (ingress_from_port rule, ingress_to_port rule))
        (sg_ingress lb_sg.2) =
      [(listener_port listener.2, listener_port listener.2)] /\
    tg_port tg.2 = listener_port listener.2 /\
    (forall rho s,
       td_container_definitions td.2 rho = Some s ->
       exists entry,
         s = json.dumps (json.JList [entry]) /\
         json.member "name" entry = Some (json.JStr (slb_container_name binding)) /\
         json.member "portMappings" entry =
           Some (json.JList [
             json.JDict [("containerPort", json.JInt (slb_container_port binding));
                         ("protocol", json.JStr "tcp")]]) /\
         json.member "command" entry =
           Some (json.JList [json.JStr (slb_container_name binding);
                             json.JStr (Py.str (slb_container_port binding))])).
Proof.
  intros Hexec Htask. with_roles Hexec Htask.
  do 7 eexists. repeat (split; [reflexivity | ]).
  intros rho s Hs. cbn [snd td_container_definitions] in Hs.
  apply template_inv in Hs as (u & l & h & _ & _ & _ & ->).
  eexists. split; [reflexivity | repeat split].
Qed.

Lemma ports_agree_witness :
  exists listener tg,
    listeners (assemble sample_net sample_cfg sample_roles).1 = [listener] /\
    target_groups (assemble sample_net sample_cfg sample_roles).1 = [tg] /\
    tg_port tg.2 = listener_port listener.2.
Proof.
  destruct (ports_agree sample_net sample_cfg sample_roles
              sample_execution_role sample_task_role
              sample_roles_execution sample_roles_task)
    as (lb_sg & svc_sg & listener & tg & svc & binding & td &
        _ & Hl & Htg & _ & _ & _ & _ & Hport & _).
  exists listener, tg. exact (conj Hl (conj Htg Hport)).
Defined.

(** X17: every run declares one log group, named [/ecs/] followed by the
    service name as it is, that keeps its events for 30 days, and one
    cluster whose name is its logical name; no field of the configuration
    other than the service name reaches them. *)
Theorem log_group_and_cluster (net : Networking) (cfg : DjangoServiceCfg)
    (rs : gmap string Resource) :
  log_groups (assemble net cfg rs).1 =
    [(service_name cfg +:+ "-log-group",
      {| log_group_name := "/ecs/" +:+ service_name cfg;
         log_group_retention_in_days := 30 |})] /\
  clusters (assemble net cfg rs).1 =
    [(service_name cfg +:+ "-cluster",
      {| cluster_name := service_name cfg +:+ "-cluster" |})].
Proof.
  role_cases rs; split; reflexivity.
Qed.
